(** * Asset resolution and verified fetching in kops

    A shallow embedding of

    - [upup/pkg/fi/cloudup/containerd.go]: the containerd asset resolver
      ([findContainerdAsset], [findContainerdVersionUrlHash],
      [findContainerdVersionUrl], [findContainerdVersionHash] and the two
      compiled-in tables), and
    - the [nodeup.sh] boot script: [download-or-bust], [validate-hash] and
      [split-commas],

    followed by the properties of the two that the specification states.

    Go strings are byte strings, so they are Rocq [string]s (one [ascii] per
    byte).  A Go [map[string]string] is a [gmap string string]; indexing a
    missing key yields the empty string, see [index]. *)

From Stdlib Require Import String Ascii List NArith ZArith Lia Bool.
From Stdlib.Strings Require Byte.
From stdpp Require Import base option gmap strings list.

Local Open Scope string_scope.
Local Open Scope list_scope.

(** ** Strings: the helpers of Go's [strings], [strconv] and [fmt] in use *)

Module gostrings.

(** [m[k]] on a [map[string]string]: the zero value for a missing key. *)
Definition index (m : gmap string string) (k : string) : string :=
  default "" (m !! k).

(** [strings.TrimPrefix]. *)
Fixpoint strip (prefix s : string) : option string :=
  match prefix, s with
  | EmptyString, _ => Some s
  | String a p, String b r => if Ascii.eqb a b then strip p r else None
  | String _ _, EmptyString => None
  end.

Definition TrimPrefix (s prefix : string) : string :=
  default s (strip prefix s).

Fixpoint rev_onto (s acc : string) : string :=
  match s with
  | EmptyString => acc
  | String c r => rev_onto r (String c acc)
  end.

Definition rev (s : string) : string := rev_onto s "".

Definition byte_in (lo hi : N) (c : ascii) : bool :=
  ((lo <=? N_of_ascii c) && (N_of_ascii c <=? hi))%N.

Definition byte_is (n : N) (c : ascii) : bool := (N_of_ascii c =? n)%N.

(** [unicode.IsSpace] on the UTF-8 encoding: the one-byte code points
    U+0009..U+000D and U+0020, the two-byte U+0085 and U+00A0 and the
    three-byte U+1680, U+2000..U+200A, U+2028, U+2029, U+202F, U+205F and
    U+3000. *)
Definition space1 (a : ascii) : bool :=
  byte_in 9 13 a || byte_is 32 a.

Definition space2 (a b : ascii) : bool :=
  byte_is 194 a && (byte_is 133 b || byte_is 160 b).

Definition space3 (a b c : ascii) : bool :=
  (byte_is 225 a && byte_is 154 b && byte_is 128 c)
  || (byte_is 226 a && byte_is 128 b
      && (byte_in 128 138 c || byte_is 168 c || byte_is 169 c || byte_is 175 c))
  || (byte_is 226 a && byte_is 129 b && byte_is 159 c)
  || (byte_is 227 a && byte_is 128 b && byte_is 128 c).

(** Drop leading white space; [back] reads the bytes of a code point in
    reverse, for use on a reversed string. *)
Fixpoint trim_space_left (back : bool) (s : string) : string :=
  match s with
  | EmptyString => EmptyString
  | String a r =>
      if space1 a then trim_space_left back r
      else match r with
           | EmptyString => s
           | String b r2 =>
               if (if back then space2 b a else space2 a b)
               then trim_space_left back r2
               else match r2 with
                    | EmptyString => s
                    | String c r3 =>
                        if (if back then space3 c b a else space3 a b c)
                        then trim_space_left back r3
                        else s
                    end
           end
  end.

(** [strings.TrimSpace]. *)
Definition TrimSpace (s : string) : string :=
  rev (trim_space_left true (rev (trim_space_left false s))).

(** [strings.TrimLeft(s, "0")]. *)
Fixpoint TrimLeft0 (s : string) : string :=
  match s with
  | String c r => if Ascii.eqb c "0" then TrimLeft0 r else s
  | EmptyString => EmptyString
  end.

(** Splitting at a one-byte separator with at most [n] cuts left. *)
Fixpoint split_upto (sep : ascii) (n : nat) (s : string) : list string :=
  match s with
  | EmptyString => [EmptyString]
  | String c r =>
      match n with
      | O => [s]
      | S n' =>
          if Ascii.eqb c sep then EmptyString :: split_upto sep n' r
          else match split_upto sep n r with
               | h :: t => String c h :: t
               | [] => [String c EmptyString]
               end
      end
  end.

(** [strings.SplitN(s, sep, n)] for a one-byte [sep] and [n >= 0]. *)
Definition SplitN (s : string) (sep : ascii) (n : nat) : list string :=
  match n with
  | O => []
  | S k => split_upto sep k s
  end.

(** [strings.Split(s, sep)] for a one-byte [sep]. *)
Definition Split (s : string) (sep : ascii) : list string :=
  split_upto sep (String.length s) s.

(** [strings.Join]. *)
Fixpoint Join (parts : list string) (sep : string) : string :=
  match parts with
  | [] => ""
  | [p] => p
  | p :: rest => p +:+ sep +:+ Join rest sep
  end.

(** [strings.IndexRune(s, c)] for a one-byte [c], as the two sides of the
    first occurrence: [None] stands for the index -1. *)
Fixpoint cut (c : ascii) (s : string) : option (string * string) :=
  match s with
  | EmptyString => None
  | String a r =>
      if Ascii.eqb a c then Some (EmptyString, r)
      else match cut c r with
           | Some (h, t) => Some (String a h, t)
           | None => None
           end
  end.

Fixpoint all_bytes (p : ascii -> bool) (s : string) : bool :=
  match s with
  | EmptyString => true
  | String c r => p c && all_bytes p r
  end.

Fixpoint any_byte (p : ascii -> bool) (s : string) : bool :=
  match s with
  | EmptyString => false
  | String c r => p c || any_byte p r
  end.

Definition is_digit (c : ascii) : bool := byte_in 48 57 c.

Definition is_alpha (c : ascii) : bool :=
  byte_in 97 122 c || byte_in 65 90 c || byte_is 45 c.

Fixpoint decimal (acc : N) (s : string) : option N :=
  match s with
  | EmptyString => Some acc
  | String c r =>
      if is_digit c then decimal (acc * 10 + (N_of_ascii c - 48))%N r
      else None
  end.

(** [strconv.ParseUint(s, 10, 64)]: a syntax error on the empty string or
    a non-digit, a range error from 2^64 on. *)
Definition ParseUint (s : string) : option N :=
  match s with
  | EmptyString => None
  | _ => match decimal 0 s with
         | Some n => if (n <? 2 ^ 64)%N then Some n else None
         | None => None
         end
  end.

(** [fmt.Sprintf] with string operands, for formats made of text, [%s],
    [%v] and [%%]: a verb takes the next operand, a verb without operand
    prints [%!s(MISSING)] and operands left over are reported at the end.
    Flags, widths and the other verbs are not modelled (they are copied as
    text); the format strings of [containerd.go] use [%s] only. *)
Fixpoint extra (args : list string) : string :=
  match args with
  | [] => ""
  | [a] => "string=" +:+ a
  | a :: rest => "string=" +:+ a +:+ ", " +:+ extra rest
  end.

Fixpoint Sprintf (format : string) (args : list string) : string :=
  match format with
  | EmptyString =>
      match args with
      | [] => ""
      | _ => "%!(EXTRA " +:+ extra args +:+ ")"
      end
  | String c r =>
      if Ascii.eqb c "%" then
        match r with
        | String v r' =>
            if Ascii.eqb v "s" || Ascii.eqb v "v" then
              match args with
              | a :: args' => a +:+ Sprintf r' args'
              | [] => String "%" (String "!" (String v "(MISSING)")) +:+ Sprintf r' []
              end
            else if Ascii.eqb v "%" then String "%" (Sprintf r' args)
            else String c (Sprintf r args)
        | EmptyString => "%!(NOVERB)" +:+ Sprintf r args
        end
      else String c (Sprintf r args)
  end.

(** [strings.Contains]. *)
Fixpoint Contains (s substr : string) : bool :=
  match strip substr s with
  | Some _ => true
  | None =>
      match s with
      | EmptyString => false
      | String _ r => Contains r substr
      end
  end.

End gostrings.

Import gostrings.

(** ** Semantic versions

    Modelled from the spec: the resolver imports
    [github.com/blang/semver/v4], a library that is not among the sources.
    The spec has the version string parsed tolerantly as a semantic version
    (a leading [v], a missing patch component and the like are accepted)
    and compared with the minimum supported version and with the URL
    threshold.  The module follows the library's [ParseTolerant], [Parse],
    [MustParse], [Compare], [LT] and [GTE].  [uint64] fields are [N]: the
    parser rejects anything from 2^64 on, and nothing is computed with them
    afterwards. *)

Module semver.

Record PRVersion := {
  VersionStr : string;
  VersionNum : N;
  IsNum : bool
}.

Record Version := {
  Major : N;
  Minor : N;
  Patch : N;
  Pre : list PRVersion;
  Build : list string
}.

Definition numbers (c : ascii) : bool := is_digit c.
Definition alphanum (c : ascii) : bool := is_alpha c || is_digit c.

Definition containsOnly (s : string) (set : ascii -> bool) : bool :=
  all_bytes set s.

Definition hasLeadingZeroes (s : string) : bool :=
  match s with
  | String c (String _ _) => Ascii.eqb c "0"
  | _ => false
  end.

(** A numeric field of [Parse]: digits only, no leading zero, in range. *)
Definition number (s : string) : option N :=
  if negb (containsOnly s numbers) then None
  else if hasLeadingZeroes s then None
  else ParseUint s.

Definition NewPRVersion (s : string) : option PRVersion :=
  match s with
  | EmptyString => None
  | _ =>
      if containsOnly s numbers then
        if hasLeadingZeroes s then None
        else match ParseUint s with
             | Some num => Some {| VersionStr := ""; VersionNum := num; IsNum := true |}
             | None => None
             end
      else if containsOnly s alphanum then
        Some {| VersionStr := s; VersionNum := 0; IsNum := false |}
      else None
  end.

Fixpoint prereleases (l : list string) : option (list PRVersion) :=
  match l with
  | [] => Some []
  | s :: rest =>
      match NewPRVersion s with
      | Some p => match prereleases rest with
                  | Some ps => Some (p :: ps)
                  | None => None
                  end
      | None => None
      end
  end.

Fixpoint builds (l : list string) : option (list string) :=
  match l with
  | [] => Some []
  | s :: rest =>
      match s with
      | EmptyString => None
      | _ => if containsOnly s alphanum
             then match builds rest with
                  | Some bs => Some (s :: bs)
                  | None => None
                  end
             else None
      end
  end.

(** [semver.Parse]. *)
Definition Parse (s : string) : option Version :=
  match s with
  | EmptyString => None
  | _ =>
      match SplitN s "." 3 with
      | [p0; p1; p2] =>
          match number p0 with
          | None => None
          | Some major =>
              match number p1 with
              | None => None
              | Some minor =>
                  let '(patchStr, build) :=
                    match cut "+" p2 with
                    | Some (before, after) => (before, Split after ".")
                    | None => (p2, [])
                    end in
                  let '(patchStr, prerelease) :=
                    match cut "-" patchStr with
                    | Some (before, after) => (before, Split after ".")
                    | None => (patchStr, [])
                    end in
                  match number patchStr with
                  | None => None
                  | Some patch =>
                      match prereleases prerelease with
                      | None => None
                      | Some pre =>
                          match builds build with
                          | None => None
                          | Some bld =>
                              Some {| Major := major; Minor := minor; Patch := patch;
                                      Pre := pre; Build := bld |}
                          end
                      end
                  end
              end
          end
      | _ => None
      end
  end.

(** The loop of [ParseTolerant] that removes leading zeroes. *)
Definition unpad (p : string) : string :=
  match p with
  | String _ (String _ _) =>
      let q := TrimLeft0 p in
      match q with
      | EmptyString => "0" +:+ q
      | String c _ => if is_digit c then q else "0" +:+ q
      end
  | _ => p
  end.

Definition fill (parts : list string) : list string :=
  parts ++ repeat "0" (3 - length parts).

(** [semver.ParseTolerant]. *)
Definition ParseTolerant (s : string) : option Version :=
  let s := TrimSpace s in
  let s := TrimPrefix s "v" in
  let parts := map unpad (SplitN s "." 3) in
  if (length parts <? 3)%nat
  then
    if any_byte (fun c => Ascii.eqb c "+" || Ascii.eqb c "-") (List.last parts "")
    then None
    else Parse (Join (fill parts) ".")
  else Parse (Join parts ".").

Definition cmpN (a b : N) : Z :=
  if (a =? b)%N then 0%Z else if (b <? a)%N then 1%Z else (-1)%Z.

(** [PRVersion.Compare]. *)
Definition PRCompare (v o : PRVersion) : Z :=
  if IsNum v && negb (IsNum o) then (-1)%Z
  else if negb (IsNum v) && IsNum o then 1%Z
  else if IsNum v && IsNum o then cmpN (VersionNum v) (VersionNum o)
  else match String.compare (VersionStr v) (VersionStr o) with
       | Eq => 0%Z
       | Gt => 1%Z
       | Lt => (-1)%Z
       end.

Fixpoint PreCompare (v o : list PRVersion) : Z :=
  match v, o with
  | [], [] => 0%Z
  | [], _ :: _ => (-1)%Z
  | _ :: _, [] => 1%Z
  | a :: v', b :: o' =>
      let comp := PRCompare a b in
      if (comp =? 0)%Z then PreCompare v' o' else comp
  end.

(** [Version.Compare]: -1, 0 or 1. *)
Definition Compare (v o : Version) : Z :=
  if negb (Major v =? Major o)%N then cmpN (Major v) (Major o)
  else if negb (Minor v =? Minor o)%N then cmpN (Minor v) (Minor o)
  else if negb (Patch v =? Patch o)%N then cmpN (Patch v) (Patch o)
  else match Pre v, Pre o with
       | [], [] => 0%Z
       | [], _ :: _ => 1%Z
       | _ :: _, [] => (-1)%Z
       | _, _ => PreCompare (Pre v) (Pre o)
       end.

Definition LT (v o : Version) : bool := (Compare v o =? -1)%Z.
Definition GTE (v o : Version) : bool := (0 <=? Compare v o)%Z.

(** [semver.MustParse] panics on a string that [Parse] rejects; the two
    call sites pass literals that it accepts ([MustParse_1_3_4],
    [MustParse_1_3_8]), so the zero version below is never produced. *)
Definition MustParse (s : string) : Version :=
  default {| Major := 0; Minor := 0; Patch := 0; Pre := []; Build := [] |} (Parse s).

Definition plain (major minor patch : N) : Version :=
  {| Major := major; Minor := minor; Patch := patch; Pre := []; Build := [] |}.

End semver.

(** ** What the resolver takes from the rest of the repository *)

Module architectures.

(** Modelled from the spec: package [util/pkg/architectures] is not among
    the sources.  The spec has the architecture as the values amd64 and
    arm64, with any other value a resolution error; the resolver prints
    it with [%s] and ends its [switch] with a [default:] case, so it is a
    string type with two named values. *)
Definition Architecture := string.
Definition ArchitectureAmd64 : Architecture := "amd64".
Definition ArchitectureArm64 : Architecture := "arm64".

End architectures.

Import architectures.

(** The errors of [containerd.go], one constructor per [fmt.Errorf] with the
    operands of its message; [ErrOther] is an error of a function outside
    this file. *)
Inductive error :=
  | ErrNoContainerdConfig
      (* "unable to find containerd config" *)
  | ErrNoContainerdVersion
      (* "unable to find containerd version" *)
  | ErrUnknownUrlAndHash (arch : Architecture) (version : string)
      (* "unknown url and hash for containerd version: %s - %s" *)
  | ErrParseVersion (version : string)
      (* "unable to parse version string: %q" *)
  | ErrLegacyVersion (version : string)
      (* "unsupported legacy containerd version: %q" *)
  | ErrUnknownArch (arch : Architecture)
      (* "unknown arch: %q" *)
  | ErrUnknownUrl (arch : Architecture) (version : string)
      (* "unknown url for containerd version: %s - %s" *)
  | ErrUnknownHash (arch : Architecture) (version : string)
      (* "unknown hash for containerd version: %s - %s" *)
  | ErrOther (msg : string).

(** A Go result [(T, error)]. *)
Inductive result (A : Type) :=
  | Ok (a : A)
  | Err (e : error).

Arguments Ok {A} a.
Arguments Err {A} e.

#[global] Instance result_ret : MRet result := fun A a => Ok a.
#[global] Instance result_bind : MBind result :=
  fun A B f r => match r with Ok a => f a | Err e => Err e end.

Definition is_err {A} (r : result A) : bool :=
  match r with Ok _ => false | Err _ => true end.

Module kops.

(** Modelled from the spec: the API types of [pkg/apis/kops] are not among
    the sources; these are the fields [findContainerdAsset] reads.  The
    spec's Override Package is a URL and a hash per architecture, each a
    [*string] that may be nil. *)
Record PackagesConfig := {
  HashAmd64 : option string;
  HashArm64 : option string;
  UrlAmd64 : option string;
  UrlArm64 : option string
}.

Record ContainerdConfig := {
  Packages : option PackagesConfig;
  Version : option string
}.

Record ClusterSpec := {
  Containerd : option ContainerdConfig
}.

Record Cluster := {
  Spec : ClusterSpec
}.

End kops.

Module fi.

(** Modelled from the spec: [fi.StringValue] of [upup/pkg/fi] is not among
    the sources; it reads a [*string], with the empty string for nil. *)
Definition StringValue (s : option string) : string := default "" s.

End fi.

(** The Docker side of the package ([docker.go], not among the sources),
    taken as given: the bundler's own resolution and the arm64 URL format
    and hash table that [containerd.go] reads directly. *)
Class DockerPackages := {
  findDockerVersionUrl : Architecture -> string -> result string;
  findDockerVersionHash : Architecture -> string -> result string;
  dockerVersionUrlArm64 : string;
  findAllDockerHashesArm64 : gmap string string
}.

(** [findAssetsUrlHash] (not among the sources), taken as given: it turns a
    URL string and a hash string into a [*url.URL] and a [*hashing.Hash]
    with the help of the asset builder. *)
Class AssetsHelper := {
  AssetBuilder : Type;
  URL : Type;
  Hash : Type;
  findAssetsUrlHash : AssetBuilder -> string -> string -> result (URL * Hash)
}.

(** ** The resolver: [containerd.go] *)

(* containerd packages URLs for v1.4.x+ *)
Definition containerdVersionUrlAmd64 : string :=
  "https://github.com/containerd/containerd/releases/download/v%s/cri-containerd-cni-%s-linux-amd64.tar.gz".
(* containerd legacy packages URLs for v1.2.x and v1.3.x *)
Definition containerdLegacyUrlAmd64 : string :=
  "https://storage.googleapis.com/cri-containerd-release/cri-containerd-%s.linux-amd64.tar.gz".
(* containerd version that is available for both AMD64 and ARM64, used in
   case the selected version is not available for ARM64 *)
Definition containerdFallbackVersion : string := "1.4.6".

Definition containerdHashesAmd64 : list (string * string) := [
  ("1.3.4",  "4616971c3ad21c24f2f2320fa1c085577a91032a068dd56a41c7c4b71a458087");
  ("1.3.9",  "96663699e0f888fbf232ae6629a367aa7421f6b95044e7ee5d4d4e02841fac75");
  ("1.3.10", "69e23e49cdf1232d475a77bf7ecd7145ff4a80295154e190125c4d8a20e241da");
  ("1.4.0",  "b379f29417efd583f77e095173d4d0bd6bb001f0081b2a63d152ee7aef653ce1");
  ("1.4.1",  "757efb93a4f3161efc447a943317503d8a7ded5cb4cc0cba3f3318d7ce1542ed");
  ("1.4.2",  "9d0fd5f4d2bc58b345728432b7daac75fc99c1da91afa4f41e6103f618e74012");
  ("1.4.3",  "2697a342e3477c211ab48313e259fd7e32ad1f5ded19320e6a559f50a82bff3d");
  ("1.4.4",  "96641849cb78a0a119223a427dfdc1ade88412ef791a14193212c8c8e29d447b");
  ("1.4.5",  "f8155278fd256526ca9804219e1ee46f5db11c6ddf455086b04c0887c868822a");
  ("1.4.6",  "6ae4763598c9583f8b50605f19d6c7e9ef93c216706465e73dfc84ee6b63a238");
  ("1.4.7",  "daa14638344fe0772f645e190e4d8eb9549b52743364cb8000521490f9e410b8");
  ("1.4.8",  "96e815c9ab664a02dd5be35e31d15890ea6bef04dfaa39f99f14676c3d6561e8");
  ("1.4.9",  "9911479f86012d6eab7e0f532da8f807a8b0f555ee09ef89367d8c31243073bb");
  ("1.5.0",  "aee7b553ab88842fdafe43955757abe746b8e9995b2be55c603f0a236186ff9b");
  ("1.5.1",  "2fd97916b24396c13849cfcd89805170e1ef0265a2f7fce8e74ae044a6a6a169");
  ("1.5.2",  "e7adbb6c6f6e67639460579a8aa991e9ce4de2062ed36d3261e6e4865574d947");
  ("1.5.3",  "32a9bf1b7ab2adbd9d2a16b17bf1aa6e61592938655adfb5114c40d527aa9be7");
  ("1.5.4",  "591e4e087ea2f5007e6c64deb382df58d419b7b6922eab45a1923d843d57615f");
  ("1.5.5",  "45f02cfc65db47cf088c95555906e1dcba7baf5a3fbad3d947dd6b9af476a144")
].

Definition findAllContainerdHashesAmd64 : gmap string string :=
  list_to_map containerdHashesAmd64.

Definition containerdDockerMappings : list (string * string) := [
  ("1.3.7", "19.03.13");
  ("1.3.9", "19.03.14");
  ("1.4.3", "20.10.0");
  ("1.4.4", "20.10.6");
  ("1.4.6", "20.10.7")
].

Definition findAllContainerdDockerMappings : gmap string string :=
  list_to_map containerdDockerMappings.

Definition nonempty (s : string) : bool := negb (String.eqb s "").

(** What a key of either table parses to: a plain version from 1.3.4 on. *)
Definition supported (version : string) : bool :=
  match semver.ParseTolerant version with
  | Some sv => negb (semver.LT sv (semver.MustParse "1.3.4"))
  | None => false
  end.

Section resolver.

Context `{DockerPackages}.

(** The [switch arch] of [findContainerdVersionUrl]: the URL [u], still
    possibly empty, or the error of the [default:] case. *)
Definition versionUrlSwitch (sv : semver.Version) (arch : Architecture) (version : string)
  : result string :=
  if String.eqb arch ArchitectureAmd64 then
    if semver.GTE sv (semver.MustParse "1.3.8")
    then Ok (Sprintf containerdVersionUrlAmd64 [version; version])
    else Ok (Sprintf containerdLegacyUrlAmd64 [version])
  else if String.eqb arch ArchitectureArm64 then
    (* For now there are only official AMD64 builds, always using fallback
       Docker version instead *)
    if nonempty (index findAllContainerdHashesAmd64 version) then
      if nonempty (index findAllContainerdDockerMappings version)
      then Ok (Sprintf dockerVersionUrlArm64
                 [index findAllContainerdDockerMappings version])
      else Ok (Sprintf dockerVersionUrlArm64
                 [index findAllContainerdDockerMappings containerdFallbackVersion])
    else Ok ""
  else Err (ErrUnknownArch arch).

Definition findContainerdVersionUrl (arch : Architecture) (version : string)
  : result string :=
  match semver.ParseTolerant version with
  | None => Err (ErrParseVersion version)
  | Some sv =>
      if semver.LT sv (semver.MustParse "1.3.4") then Err (ErrLegacyVersion version)
      else
        u ← versionUrlSwitch sv arch version;
        if String.eqb u "" then Err (ErrUnknownUrl arch version)
        else Ok u
  end.

(** The [switch arch] of [findContainerdVersionHash]. *)
Definition versionHashSwitch (arch : Architecture) (version : string)
  : result string :=
  if String.eqb arch ArchitectureAmd64 then
    Ok (index findAllContainerdHashesAmd64 version)
  else if String.eqb arch ArchitectureArm64 then
    if nonempty (index findAllContainerdHashesAmd64 version) then
      if nonempty (index findAllContainerdDockerMappings version)
      then Ok (index findAllDockerHashesArm64
                 (index findAllContainerdDockerMappings version))
      else Ok (index findAllDockerHashesArm64
                 (index findAllContainerdDockerMappings containerdFallbackVersion))
    else Ok ""
  else Err (ErrUnknownArch arch).

Definition findContainerdVersionHash (arch : Architecture) (version : string)
  : result string :=
  match semver.ParseTolerant version with
  | None => Err (ErrParseVersion version)
  | Some sv =>
      if semver.LT sv (semver.MustParse "1.3.4") then Err (ErrLegacyVersion version)
      else
        h ← versionHashSwitch arch version;
        if String.eqb h "" then Err (ErrUnknownHash arch version)
        else Ok h
  end.

(** [findContainerdVersionUrlHash]; its [println(dv)] writes to the
    standard error stream and is left out. *)
Definition findContainerdVersionUrlHash (arch : Architecture) (version : string)
  : result (string * string) :=
  if nonempty (index findAllContainerdHashesAmd64 version) then
    containerdAssetUrl ← findContainerdVersionUrl arch version;
    containerdAssetHash ← findContainerdVersionHash arch version;
    Ok (containerdAssetUrl, containerdAssetHash)
  else
    (* Fall back to Docker packages *)
    let dv := index findAllContainerdDockerMappings version in
    if nonempty dv then
      containerdAssetUrl ← findDockerVersionUrl arch dv;
      containerdAssetHash ← findDockerVersionHash arch dv;
      Ok (containerdAssetUrl, containerdAssetHash)
    else Err (ErrUnknownUrlAndHash arch version).

Context `{AssetsHelper}.

(** The override of [containerd.Packages] that applies to [arch], if any:
    the two [if]s under [containerd.Packages != nil]. *)
Definition packagesOverride (containerd : kops.ContainerdConfig) (arch : Architecture)
  : option (string * string) :=
  match kops.Packages containerd with
  | None => None
  | Some packages =>
      if String.eqb arch ArchitectureAmd64
         && bool_decide (kops.UrlAmd64 packages <> None)
         && bool_decide (kops.HashAmd64 packages <> None)
      then Some (fi.StringValue (kops.UrlAmd64 packages), fi.StringValue (kops.HashAmd64 packages))
      else if String.eqb arch ArchitectureArm64
              && bool_decide (kops.UrlArm64 packages <> None)
              && bool_decide (kops.HashArm64 packages <> None)
      then Some (fi.StringValue (kops.UrlArm64 packages), fi.StringValue (kops.HashArm64 packages))
      else None
  end.

Definition findContainerdAsset (c : kops.Cluster) (assetBuilder : AssetBuilder)
    (arch : Architecture) : result (URL * Hash) :=
  match kops.Containerd (kops.Spec c) with
  | None => Err ErrNoContainerdConfig
  | Some containerd =>
      match packagesOverride containerd arch with
      | Some (assetUrl, assetHash) =>
          findAssetsUrlHash assetBuilder assetUrl assetHash
      | None =>
          let version := fi.StringValue (kops.Version containerd) in
          if String.eqb version "" then Err ErrNoContainerdVersion
          else
            match findContainerdVersionUrlHash arch version with
            | Err err => Err err
            | Ok (assetUrl, assetHash) =>
                findAssetsUrlHash assetBuilder assetUrl assetHash
            end
      end
  end.

End resolver.

(** ** The fetcher: [download-or-bust] of the node boot script *)

Module nodeup.

(** The files of the node, by path. *)
Abbreviation FS := (gmap string (list Byte.byte)).

(** What the function does to the node, in order.  Its [echo] lines are
    left out. *)
Inductive Event :=
  | Transfer (cmd url : string)   (* [${cmd} "${url}"] was run *)
  | Remove (file : string)        (* [rm -f "${file}"] *)
  | Sleep (seconds : nat).        (* [sleep 60] *)

(** The node outside the script: the digest that [sha256sum] prints for a
    file's bytes, and what running a transfer command does, given all that
    happened before: its exit status ([true] for 0) and the files it
    leaves. *)
Class Host := {
  sha256sum : list Byte.byte -> string;
  transfer : list Event -> string -> string -> FS -> bool * FS
}.

Record Machine := {
  files : FS;
  history : list Event
}.

(** Where control is after a piece of the function body: the function has
    returned, with its exit status, or it goes on (a loop body ran through;
    for [while true], the passes allotted were used up).  A [return]
    without operand gives the status of the command run last: 1 after the
    [! validate-hash] that was false, 0 after the [echo] of a download. *)
Inductive Control :=
  | Returned (status : nat) (m : Machine)
  | GoesOn (m : Machine).

(** *** Unquoted expansions

    The script leaves [${file}] unquoted in its command array and in
    [validate-hash], and [$1] and [$( )] unquoted around [split-commas].
    The shell splits such an expansion into words at blanks, tabs and
    newlines, and expands a word with a pattern character against the
    files of the working directory; [sha256sum] marks the line of a name
    with a backslash, and [sha256sum] and [rm] read a leading dash as an
    option.  Of this the model has the words of the URL list and the
    options of [echo], and nothing else: it is the script for a target
    name that is one plain word ([shell_word]) and a URL list in plain
    text ([shell_text]), and the properties of the function are stated for
    these.  With an empty URL list the [for] loop has nothing to run; a
    bash before 4.4 stops there instead, at the expansion of the empty
    array under [set -o nounset], so what is said of the loop as it runs
    is said for a list that is not empty. *)

Definition is_ifs (c : ascii) : bool :=
  byte_is 32 c || byte_is 9 c || byte_is 10 c.

Definition is_comma (c : ascii) : bool := byte_is 44 c.

Definition is_sep (c : ascii) : bool :=
  byte_is 44 c || byte_is 32 c || byte_is 9 c || byte_is 10 c.

(** Neither a pattern character ([*], [?], [[]) nor a backslash, a
    carriage return or NUL. *)
Definition shell_char (c : ascii) : bool :=
  negb (byte_is 42 c || byte_is 63 c || byte_is 91 c || byte_is 92 c
        || byte_is 13 c || byte_is 0 c).

Definition shell_text (s : string) : bool := all_bytes shell_char s.

Definition leading_dash (s : string) : bool :=
  match s with
  | String c _ => byte_is 45 c
  | EmptyString => false
  end.

Definition shell_word (w : string) : bool :=
  negb (String.eqb w "") && shell_text w && negb (any_byte is_ifs w)
  && negb (leading_dash w).

Definition push (w : string) (ws : list string) : list string :=
  match w with
  | EmptyString => ws
  | _ => w :: ws
  end.

Fixpoint split_by (sep : ascii -> bool) (s : string) : string * list string :=
  match s with
  | EmptyString => (EmptyString, [])
  | String c r =>
      let '(w, ws) := split_by sep r in
      if sep c then (EmptyString, push w ws) else (String c w, ws)
  end.

(** The words between separators, none of them empty. *)
Definition fields_by (sep : ascii -> bool) (s : string) : list string :=
  let '(w, ws) := split_by sep s in push w ws.

(** A word that the [echo] builtin reads as options when it comes before
    the operands: a dash and then one or more of [n], [e] and [E]. *)
Definition echo_option (w : string) : bool :=
  match w with
  | String d (String c r) =>
      byte_is 45 d
      && all_bytes (fun c => byte_is 110 c || byte_is 101 c || byte_is 69 c) (String c r)
  | _ => false
  end.

Fixpoint echo_operands (words : list string) : list string :=
  match words with
  | [] => []
  | w :: rest => if echo_option w then echo_operands rest else words
  end.

(** [urls=( $(split-commas "$3") )] with [echo $1 | tr "," "\n"]: [$1] is
    split into words, [echo] prints its operands (options apart) with
    blanks between them, the commas become newlines and the shell splits
    the outcome into words again.  With [-e], [echo] would read backslash
    escapes; [shell_text] has no backslash. *)
Definition split_commas (s : string) : list string :=
  flat_map (fields_by is_comma) (echo_operands (fields_by is_ifs s)).

Section script.

Context `{Host}.

(** [validate-hash] for a [file] that is one plain word: [true] is exit
    status 0.  [sha256sum] prints no digest for a file that is not there,
    and [|| true] keeps going. *)
Definition validate_hash (fs : FS) (file expected : string) : bool :=
  let actual :=
    match fs !! file with
    | Some bytes => sha256sum bytes
    | None => ""
    end in
  String.eqb actual expected.

Definition rm_f (file : string) (m : Machine) : Machine :=
  {| files := delete file (files m); history := history m ++ [Remove file] |}.

Definition sleep (seconds : nat) (m : Machine) : Machine :=
  {| files := files m; history := history m ++ [Sleep seconds] |}.

(** [(${cmd} "${url}")]. *)
Definition run (cmd url : string) (m : Machine) : bool * Machine :=
  let '(ok, fs) := transfer (history m) cmd url (files m) in
  (ok, {| files := fs; history := history m ++ [Transfer cmd url] |}).

(** The array [commands] for a [file] that is one plain word. *)
Definition commands (file : string) : list string := [
  "curl -f --compressed -Lo " +:+ file +:+ " --connect-timeout 20 --retry 6 --retry-delay 10";
  "wget --compression=auto -O " +:+ file +:+ " --connect-timeout=20 --tries=6 --wait=10";
  "curl -f -Lo " +:+ file +:+ " --connect-timeout 20 --retry 6 --retry-delay 10";
  "wget -O " +:+ file +:+ " --connect-timeout=20 --tries=6 --wait=10"
].

(** The body of [for cmd in "${commands[@]}"]. *)
Definition attempt (file hash url cmd : string) (m : Machine) : Control :=
  let '(ok, m) := run cmd url m in
  if negb ok then GoesOn m                       (* continue *)
  else if negb (validate_hash (files m) file hash)
  then GoesOn (rm_f file m)
  else Returned 0 m.

Fixpoint for_cmd (file hash url : string) (cmds : list string) (m : Machine)
  : Control :=
  match cmds with
  | [] => GoesOn m
  | cmd :: rest =>
      match attempt file hash url cmd m with
      | Returned status m' => Returned status m'
      | GoesOn m' => for_cmd file hash url rest m'
      end
  end.

Fixpoint for_url (file hash : string) (urls : list string) (m : Machine)
  : Control :=
  match urls with
  | [] => GoesOn m
  | url :: rest =>
      match for_cmd file hash url (commands file) m with
      | Returned status m' => Returned status m'
      | GoesOn m' => for_url file hash rest m'
      end
  end.

(** [while true; do ... done], run for at most [passes] passes. *)
Fixpoint while_true (passes : nat) (file hash : string) (urls : list string)
    (m : Machine) : Control :=
  match passes with
  | O => GoesOn m
  | S n =>
      match for_url file hash urls m with
      | Returned status m' => Returned status m'
      | GoesOn m' => while_true n file hash urls (sleep 60 m')
      end
  end.

Definition download_or_bust (passes : nat) (file hash urls : string)
    (m : Machine) : Control :=
  let urls := split_commas urls in
  match files m !! file with
  | Some _ =>
      if negb (validate_hash (files m) file hash)
      then while_true passes file hash urls (rm_f file m)
      else Returned 1 m
  | None => while_true passes file hash urls m
  end.

(** The events of one pass over [urls] in which every transfer fails. *)
Definition pass (file : string) (urls : list string) : list Event :=
  flat_map (fun url => map (fun cmd => Transfer cmd url) (commands file)) urls.

(** The events of [n] such passes, each followed by the sleep. *)
Fixpoint failed_passes (n : nat) (file : string) (urls : list string) : list Event :=
  match n with
  | O => []
  | S k => pass file urls ++ Sleep 60 :: failed_passes k file urls
  end.

(** What a piece of the download loop leaves behind when started in [m]:
    it only adds to the history, and when the function returns, it does so
    with status 0, the hash check has just passed on the file and a
    transfer was the last thing that happened. *)
Definition sound (file hash : string) (m : Machine) (c : Control) : Prop :=
  match c with
  | Returned status m' =>
      status = 0
      /\ validate_hash (files m') file hash = true
      /\ exists evs cmd url, history m' = history m ++ evs ++ [Transfer cmd url]
  | GoesOn m' => exists evs, history m' = history m ++ evs
  end.

End script.

End nodeup.

(** ** Instances to run the definitions on *)

Module examples.

#[export] Instance byte_eq_decision : EqDecision Byte.byte.
Proof.
  intros x y. destruct (Byte.eqb x y) eqn:E.
  - left. by apply Byte.byte_dec_bl.
  - right. by apply Byte.eqb_false.
Defined.

(** A Docker side: the URL format and the 20.10.7 digest are those of the
    arm64 Docker asset in the expected node configuration of the
    [shared_subnet] integration test; the 20.10.0 digest is made up. *)
Definition dockerUrlArm64 : string :=
  "https://download.docker.com/linux/static/stable/aarch64/docker-%s.tgz".

Definition dockerHashesArm64 : gmap string string :=
  list_to_map [
    ("20.10.0", "0000000000000000000000000000000000000000000000000000000020100000");
    ("20.10.7", "be8c9a5a06ebec8fb1d36e867cd00fb5777746a9812a0cae2966778ff899c525")
  ].

#[export] Instance docker : DockerPackages := {|
  findDockerVersionUrl arch dv :=
    if String.eqb arch architectures.ArchitectureArm64
    then Ok (Sprintf dockerUrlArm64 [dv])
    else Err (ErrOther "unknown url for docker version");
  findDockerVersionHash arch dv :=
    if String.eqb arch architectures.ArchitectureArm64
       && nonempty (index dockerHashesArm64 dv)
    then Ok (index dockerHashesArm64 dv)
    else Err (ErrOther "unknown hash for docker version");
  dockerVersionUrlArm64 := dockerUrlArm64;
  findAllDockerHashesArm64 := dockerHashesArm64
|}.

(** An asset helper that hands the two strings back. *)
#[export] Instance assets : AssetsHelper := {|
  AssetBuilder := unit;
  URL := string;
  Hash := string;
  findAssetsUrlHash _ u h := Ok (u, h)
|}.

Definition cluster (packages : option kops.PackagesConfig) (version : option string)
  : kops.Cluster :=
  {| kops.Spec :=
       {| kops.Containerd :=
            Some {| kops.Packages := packages; kops.Version := version |} |} |}.

(** Packages with a full override for amd64, and with a URL alone. *)
Definition override_amd64 : kops.PackagesConfig :=
  {| kops.HashAmd64 := Some "7c0e3e2d1b9f4a5c6d7e8f90a1b2c3d4e5f60718293a4b5c6d7e8f9012345678";
     kops.HashArm64 := None;
     kops.UrlAmd64 := Some "https://mirror.example.com/containerd/cri-containerd-cni-linux-amd64.tar.gz";
     kops.UrlArm64 := None |}.

Definition url_only_amd64 : kops.PackagesConfig :=
  {| kops.HashAmd64 := None;
     kops.HashArm64 := None;
     kops.UrlAmd64 := Some "https://mirror.example.com/containerd/cri-containerd-cni-linux-amd64.tar.gz";
     kops.UrlArm64 := None |}.

(** A node whose [sha256sum] tells the one good artifact from everything
    else, and on which a transfer succeeds from the mirror [good] alone. *)
Definition artifact : list Byte.byte := [Byte.x6e; Byte.x6f; Byte.x64; Byte.x65].
Definition digest : string :=
  "585fbda0f0a43184656b4bfc0cc5f0c0b85612faf43b8816acca1f99d422c924".
Definition good : string :=
  "https://github.com/kubernetes/kops/releases/download/v1.21.0-alpha.1/nodeup-linux-amd64".
Definition bad : string :=
  "https://artifacts.k8s.io/binaries/kops/1.21.0-alpha.1/linux/amd64/nodeup".

#[export] Instance node : nodeup.Host := {|
  nodeup.sha256sum bytes :=
    if bool_decide (bytes = artifact) then digest
    else "e3b0c44298fc1c149afbf4c8996fb92427ae41e4649b934ca495991b7852b855";
  nodeup.transfer _ cmd url fs :=
    if String.eqb url good then (true, <["nodeup" := artifact]> fs)
    else (false, fs)
|}.

(** A node that is cut off: no transfer ever succeeds. *)
Definition offline : nodeup.Host := {|
  nodeup.sha256sum := nodeup.sha256sum;
  nodeup.transfer _ _ _ fs := (false, fs)
|}.

Definition fresh : nodeup.Machine :=
  {| nodeup.files := ∅; nodeup.history := [] |}.

Definition corrupted : nodeup.Machine :=
  {| nodeup.files := {["nodeup" := [Byte.x00]]}; nodeup.history := [] |}.


End examples.

(** ** Notions for the further properties *)

(** A SHA-256 digest as the tables write it: 64 lower-case hex digits. *)
Definition is_sha256 (s : string) : bool :=
  (String.length s =? 64)%nat
  && all_bytes (fun c => is_digit c || byte_in 97 102 c) s.

(** What is asked of the resolution of one version for amd64: the hash of
    the table, well formed, and an https URL that has the version in it. *)
Definition amd64_descriptor_ok `{DockerPackages} (version : string) : bool :=
  match findContainerdVersionUrlHash ArchitectureAmd64 version with
  | Ok (u, h) =>
      String.eqb h (index findAllContainerdHashesAmd64 version)
      && is_sha256 h
      && bool_decide (is_Some (strip "https://" u))
      && Contains u version
  | Err _ => false
  end.

(** A field of a URL list: not empty, and free of the separators of
    [split-commas]. *)
Definition field (w : string) : Prop :=
  w <> "" /\ any_byte nodeup.is_sep w = false.

(** The node that a piece of the function body leaves. *)
Definition machine_of (c : nodeup.Control) : nodeup.Machine :=
  match c with
  | nodeup.Returned _ m => m
  | nodeup.GoesOn m => m
  end.

(** The number of sleeps in a history: the passes that have failed so far. *)
Definition sleeps (h : list nodeup.Event) : nat :=
  length (List.filter (fun e => match e with nodeup.Sleep _ => true | _ => false end) h).

(** The events [download-or-bust] may add for a target file and a URL list:
    one of the four commands on a listed URL, the removal of the target, a
    sleep of 60 seconds. *)
Definition allowed (file : string) (urls : list string) (e : nodeup.Event) : Prop :=
  match e with
  | nodeup.Transfer cmd url => cmd ∈ nodeup.commands file /\ url ∈ urls
  | nodeup.Remove f => f = file
  | nodeup.Sleep seconds => seconds = 60
  end.

(** The events of one pass over mirrors that serve a file with another
    hash: every command transfers it, and every time it is removed. *)
Definition tampered_pass (file : string) (urls : list string) : list nodeup.Event :=
  flat_map (fun url =>
              flat_map (fun cmd => [nodeup.Transfer cmd url; nodeup.Remove file])
                       (nodeup.commands file)) urls.

Module scenarios.

Import examples.

(** A node whose network is down until [k] passes have failed, and is that
    of [node] afterwards. *)
Definition outage (k : nat) : nodeup.Host := {|
  nodeup.sha256sum := nodeup.sha256sum;
  nodeup.transfer h cmd url fs :=
    if (sleeps h <? k)%nat then (false, fs) else nodeup.transfer h cmd url fs
|}.

(** A node for which the mirror [bad] serves other bytes than the
    artifact. *)
Definition tampering : nodeup.Host := {|
  nodeup.sha256sum := nodeup.sha256sum;
  nodeup.transfer _ cmd url fs :=
    if String.eqb url good then (true, <["nodeup" := artifact]> fs)
    else (true, <["nodeup" := [Byte.x00]]> fs)
|}.

(** A cluster with overrides for both architectures. *)
Definition override_both : kops.PackagesConfig :=
  {| kops.HashAmd64 := Some "7c0e3e2d1b9f4a5c6d7e8f90a1b2c3d4e5f60718293a4b5c6d7e8f9012345678";
     kops.HashArm64 := Some "1f2e3d4c5b6a79880716253443526170f1e2d3c4b5a697887766554433221100";
     kops.UrlAmd64 := Some "https://mirror.example.com/containerd/cri-containerd-cni-linux-amd64.tar.gz";
     kops.UrlArm64 := Some "https://mirror.example.com/containerd/cri-containerd-cni-linux-arm64.tar.gz" |}.

End scenarios.

(** * Properties *)

(** ** The tables *)

Import architectures.

Section tables.

Lemma index_list_to_map (l : list (string * string)) (k : string) :
  nonempty (index (list_to_map l) k) = true ->
  (k, index (list_to_map l) k) ∈ l.
Proof.
  unfold index.
  destruct ((list_to_map l : gmap string string) !! k) as [v|] eqn:E; simpl.
  - intros _. by apply elem_of_list_to_map_2.
  - discriminate.
Qed.

Lemma nonempty_false (s : string) : nonempty s = false <-> s = "".
Proof.
  unfold nonempty. rewrite negb_false_iff. apply String.eqb_eq.
Qed.

Lemma nonempty_true (s : string) : nonempty s = true <-> s <> "".
Proof.
  unfold nonempty. rewrite negb_true_iff. apply String.eqb_neq.
Qed.

(** A version with an amd64 hash is one of the keys of the table. *)
Lemma amd64_known (version : string) :
  nonempty (index findAllContainerdHashesAmd64 version) = true ->
  version ∈ containerdHashesAmd64.*1.
Proof.
  intros Hin. apply index_list_to_map in Hin.
  change version with ((version, index findAllContainerdHashesAmd64 version).1).
  by apply list_elem_of_fmap_2.
Qed.

Lemma mapping_known (version : string) :
  nonempty (index findAllContainerdDockerMappings version) = true ->
  version ∈ containerdDockerMappings.*1.
Proof.
  intros Hin. apply index_list_to_map in Hin.
  change version with ((version, index findAllContainerdDockerMappings version).1).
  by apply list_elem_of_fmap_2.
Qed.

Lemma keys_supported :
  forallb supported (containerdHashesAmd64.*1 ++ containerdDockerMappings.*1) = true.
Proof. vm_compute. reflexivity. Qed.

Lemma supported_known (version : string) :
  nonempty (index findAllContainerdHashesAmd64 version) = true
  \/ nonempty (index findAllContainerdDockerMappings version) = true ->
  supported version = true.
Proof.
  intros Hin.
  pose proof keys_supported as Hall. rewrite forallb_forall in Hall.
  apply Hall, list_elem_of_In, elem_of_app.
  destruct Hin as [Hin|Hin]; [left; by apply amd64_known | right; by apply mapping_known].
Qed.

(** So a version that does not parse, or parses below 1.3.4, is in
    neither table. *)
Lemma unsupported_unknown (version : string) :
  supported version = false ->
  index findAllContainerdHashesAmd64 version = ""
  /\ index findAllContainerdDockerMappings version = "".
Proof.
  intros Hno. split; apply nonempty_false, not_true_is_false; intros Hin;
    rewrite supported_known in Hno; auto; discriminate.
Qed.

Lemma MustParse_1_3_4 : semver.Parse "1.3.4" = Some (semver.plain 1 3 4).
Proof. reflexivity. Qed.

Lemma MustParse_1_3_8 : semver.Parse "1.3.8" = Some (semver.plain 1 3 8).
Proof. reflexivity. Qed.

End tables.

(** ** The resolver *)

Section resolver_properties.

Context `{DockerPackages} `{AssetsHelper}.

Lemma override_complete (containerd : kops.ContainerdConfig)
    (packages : kops.PackagesConfig) (arch : Architecture) (url hash : string) :
  kops.Packages containerd = Some packages ->
  (arch = ArchitectureAmd64
   /\ kops.UrlAmd64 packages = Some url /\ kops.HashAmd64 packages = Some hash)
  \/ (arch = ArchitectureArm64
      /\ kops.UrlArm64 packages = Some url /\ kops.HashArm64 packages = Some hash) ->
  packagesOverride containerd arch = Some (url, hash).
Proof.
  intros Hp [(-> & Hu & Hh)|(-> & Hu & Hh)];
    unfold packagesOverride; rewrite Hp; destruct packages; simpl in Hu, Hh;
    subst; reflexivity.
Qed.

Lemma override_incomplete (containerd : kops.ContainerdConfig)
    (packages : kops.PackagesConfig) (arch : Architecture) :
  kops.Packages containerd = Some packages ->
  ~ (arch = ArchitectureAmd64
     /\ is_Some (kops.UrlAmd64 packages) /\ is_Some (kops.HashAmd64 packages)) ->
  ~ (arch = ArchitectureArm64
     /\ is_Some (kops.UrlArm64 packages) /\ is_Some (kops.HashArm64 packages)) ->
  packagesOverride containerd arch = None.
Proof.
  intros Hp Hamd Harm. unfold packagesOverride. rewrite Hp.
  destruct (String.eqb_spec arch ArchitectureAmd64) as [->|Ha]; simpl.
  - destruct (kops.UrlAmd64 packages) as [u|] eqn:Eu;
      destruct (kops.HashAmd64 packages) as [h|] eqn:Eh; try reflexivity.
    exfalso. apply Hamd. eauto.
  - destruct (String.eqb_spec arch ArchitectureArm64) as [->|Hb]; simpl; [|reflexivity].
    destruct (kops.UrlArm64 packages) as [u|] eqn:Eu;
      destruct (kops.HashArm64 packages) as [h|] eqn:Eh; try reflexivity.
    exfalso. apply Harm. eauto.
Qed.

Lemma StringValue_Some (s : string) : fi.StringValue (Some s) = s.
Proof. reflexivity. Qed.

(** Without an override that applies, [findContainerdAsset] is the
    resolution by version. *)
Lemma asset_by_version (c : kops.Cluster) (containerd : kops.ContainerdConfig)
    (assetBuilder : AssetBuilder) (arch : Architecture) :
  kops.Containerd (kops.Spec c) = Some containerd ->
  packagesOverride containerd arch = None ->
  findContainerdAsset c assetBuilder arch =
    let version := fi.StringValue (kops.Version containerd) in
    if String.eqb version "" then Err ErrNoContainerdVersion
    else match findContainerdVersionUrlHash arch version with
         | Err err => Err err
         | Ok (assetUrl, assetHash) => findAssetsUrlHash assetBuilder assetUrl assetHash
         end.
Proof.
  intros Hc Ho. unfold findContainerdAsset. rewrite Hc, Ho. reflexivity.
Qed.

(** C1. Override precedence: when the cluster's containerd packages give
    both a URL and a hash for the architecture asked for (amd64 or arm64),
    [findContainerdAsset] hands exactly these two to [findAssetsUrlHash]
    and returns what it returns; the version of the cluster, the hash
    tables and the Docker mapping play no part, whatever the version is
    set to. *)
Theorem override_precedence (c : kops.Cluster) (containerd : kops.ContainerdConfig)
    (packages : kops.PackagesConfig) (assetBuilder : AssetBuilder)
    (arch : Architecture) (url hash : string) :
  kops.Containerd (kops.Spec c) = Some containerd ->
  kops.Packages containerd = Some packages ->
  (arch = ArchitectureAmd64
   /\ kops.UrlAmd64 packages = Some url /\ kops.HashAmd64 packages = Some hash)
  \/ (arch = ArchitectureArm64
      /\ kops.UrlArm64 packages = Some url /\ kops.HashArm64 packages = Some hash) ->
  findContainerdAsset c assetBuilder arch = findAssetsUrlHash assetBuilder url hash
  /\ forall version : option string,
      findContainerdAsset
        {| kops.Spec :=
             {| kops.Containerd :=
                  Some {| kops.Packages := Some packages; kops.Version := version |} |} |}
        assetBuilder arch
      = findAssetsUrlHash assetBuilder url hash.
Proof.
  intros Hc Hp Hfull. split.
  - unfold findContainerdAsset. rewrite Hc.
    by rewrite (override_complete containerd packages arch url hash).
  - intros version. unfold findContainerdAsset. cbn [kops.Spec kops.Containerd].
    by erewrite override_complete.
Qed.

(** C10. A partial override falls through: when the packages are there
    but give, for the architecture asked for, not both a URL and a hash,
    [findContainerdAsset] returns what it returns for the same cluster
    without packages: the override is dropped without an error of its
    own. *)
Theorem partial_override_falls_through (c : kops.Cluster)
    (containerd : kops.ContainerdConfig) (packages : kops.PackagesConfig)
    (assetBuilder : AssetBuilder) (arch : Architecture) :
  kops.Containerd (kops.Spec c) = Some containerd ->
  kops.Packages containerd = Some packages ->
  ~ (arch = ArchitectureAmd64
     /\ is_Some (kops.UrlAmd64 packages) /\ is_Some (kops.HashAmd64 packages)) ->
  ~ (arch = ArchitectureArm64
     /\ is_Some (kops.UrlArm64 packages) /\ is_Some (kops.HashArm64 packages)) ->
  findContainerdAsset c assetBuilder arch =
  findContainerdAsset
    {| kops.Spec :=
         {| kops.Containerd :=
              Some {| kops.Packages := None;
                      kops.Version := kops.Version containerd |} |} |}
    assetBuilder arch.
Proof.
  intros Hc Hp Hamd Harm.
  rewrite (asset_by_version c containerd) by eauto using override_incomplete.
  reflexivity.
Qed.

(** *** Versions and URL formats *)

Lemma cmpN_range (a b : N) :
  semver.cmpN a b = (-1)%Z \/ semver.cmpN a b = 0%Z \/ semver.cmpN a b = 1%Z.
Proof. unfold semver.cmpN. repeat case_match; auto. Qed.

Lemma PreCompare_range (v o : list semver.PRVersion) :
  semver.PreCompare v o = (-1)%Z \/ semver.PreCompare v o = 0%Z
  \/ semver.PreCompare v o = 1%Z.
Proof.
  revert o. induction v as [|a v IH]; intros [|b o]; simpl; auto.
  destruct (Z.eqb_spec (semver.PRCompare a b) 0) as [_|_]; [apply IH|].
  unfold semver.PRCompare.
  repeat case_match; auto using cmpN_range.
Qed.

Lemma Compare_range (v o : semver.Version) :
  semver.Compare v o = (-1)%Z \/ semver.Compare v o = 0%Z \/ semver.Compare v o = 1%Z.
Proof.
  unfold semver.Compare.
  repeat case_match; auto using cmpN_range, PreCompare_range.
Qed.

(** Below is the opposite of at-or-above. *)
Lemma LT_GTE (v o : semver.Version) : semver.LT v o = negb (semver.GTE v o).
Proof.
  unfold semver.LT, semver.GTE.
  destruct (Compare_range v o) as [->|[->| ->]]; reflexivity.
Qed.

Lemma current_template (version : string) :
  Sprintf containerdVersionUrlAmd64 [version; version] =
  "https://github.com/containerd/containerd/releases/download/v" +:+ version
    +:+ "/cri-containerd-cni-" +:+ version +:+ "-linux-amd64.tar.gz".
Proof. reflexivity. Qed.

Lemma legacy_template (version : string) :
  Sprintf containerdLegacyUrlAmd64 [version] =
  "https://storage.googleapis.com/cri-containerd-release/cri-containerd-" +:+ version
    +:+ ".linux-amd64.tar.gz".
Proof. reflexivity. Qed.

Lemma supported_inv (version : string) :
  supported version = true ->
  exists sv, semver.ParseTolerant version = Some sv
             /\ semver.LT sv (semver.MustParse "1.3.4") = false.
Proof.
  unfold supported. destruct (semver.ParseTolerant version) as [sv|]; [|discriminate].
  intros Hge. exists sv. split; [reflexivity|]. by apply negb_true_iff.
Qed.

(** *** Resolution of a version with an amd64 hash *)

Lemma amd64_resolution (version : string) (sv : semver.Version) :
  nonempty (index findAllContainerdHashesAmd64 version) = true ->
  semver.ParseTolerant version = Some sv ->
  findContainerdVersionUrlHash ArchitectureAmd64 version =
  Ok (if semver.GTE sv (semver.MustParse "1.3.8")
      then Sprintf containerdVersionUrlAmd64 [version; version]
      else Sprintf containerdLegacyUrlAmd64 [version],
      index findAllContainerdHashesAmd64 version).
Proof.
  intros Hin Hparse.
  destruct (supported_inv version) as (sv' & Hparse' & Hge); [apply supported_known; auto|].
  rewrite Hparse in Hparse'. injection Hparse' as <-.
  unfold findContainerdVersionUrlHash, findContainerdVersionUrl, findContainerdVersionHash.
  rewrite Hin, Hparse, Hge.
  unfold versionUrlSwitch, versionHashSwitch.
  change (String.eqb ArchitectureAmd64 ArchitectureAmd64) with true. cbn beta iota.
  apply nonempty_true, String.eqb_neq in Hin.
  generalize dependent (index findAllContainerdHashesAmd64 version).
  intros h Hh.
  destruct (semver.GTE sv (semver.MustParse "1.3.8")); cbn; rewrite Hh; reflexivity.
Qed.

Lemma arm64_resolution (version : string) :
  nonempty (index findAllContainerdHashesAmd64 version) = true ->
  findContainerdVersionUrlHash ArchitectureArm64 version =
  let dv :=
    if nonempty (index findAllContainerdDockerMappings version)
    then index findAllContainerdDockerMappings version
    else index findAllContainerdDockerMappings containerdFallbackVersion in
  let h := index findAllDockerHashesArm64 dv in
  if String.eqb (Sprintf dockerVersionUrlArm64 [dv]) ""
  then Err (ErrUnknownUrl ArchitectureArm64 version)
  else if String.eqb h "" then Err (ErrUnknownHash ArchitectureArm64 version)
  else Ok (Sprintf dockerVersionUrlArm64 [dv], h).
Proof.
  intros Hin.
  destruct (supported_inv version) as (sv & Hparse & Hge); [apply supported_known; auto|].
  unfold findContainerdVersionUrlHash, findContainerdVersionUrl, findContainerdVersionHash.
  rewrite Hin, Hparse, Hge.
  unfold versionUrlSwitch, versionHashSwitch.
  change (String.eqb ArchitectureArm64 ArchitectureAmd64) with false.
  change (String.eqb ArchitectureArm64 ArchitectureArm64) with true.
  cbn beta iota. rewrite Hin.
  generalize (index findAllContainerdDockerMappings containerdFallbackVersion).
  generalize (index findAllContainerdDockerMappings version).
  intros dv dv'. cbn zeta.
  destruct (nonempty dv); cbn [mbind result_bind]; repeat case_match; reflexivity.
Qed.

(** A version in neither table is not resolved, whatever the
    architecture. *)
Lemma unknown_resolution (arch : Architecture) (version : string) :
  index findAllContainerdHashesAmd64 version = "" ->
  index findAllContainerdDockerMappings version = "" ->
  findContainerdVersionUrlHash arch version = Err (ErrUnknownUrlAndHash arch version).
Proof.
  intros Hh Hm. unfold findContainerdVersionUrlHash. rewrite Hh, Hm. reflexivity.
Qed.

(** *** The claims on resolution by version *)

(** C2 (amended). The default fallback is for versions that have an amd64
    hash: for a version without an entry in the containerd-to-Docker
    mapping, resolution for arm64 takes the Docker version mapped from the
    fallback version 1.4.6, which is 20.10.7, when the version has an entry
    in the amd64 hash table, and then returns the arm64 Docker URL and hash
    of 20.10.7, failing only with the unknown-url or the unknown-hash error,
    when the arm64 Docker URL format or hash table gives the empty string
    for 20.10.7; a version with neither a mapping nor an amd64 hash is not
    resolved for any architecture: the unknown-url-and-hash error is
    returned without a look at the default. *)
Theorem fallback_default (version : string) :
  index findAllContainerdDockerMappings version = "" ->
  index findAllContainerdDockerMappings containerdFallbackVersion = "20.10.7"
  /\ (nonempty (index findAllContainerdHashesAmd64 version) = true ->
      findContainerdVersionUrlHash ArchitectureArm64 version =
      if String.eqb (Sprintf dockerVersionUrlArm64 ["20.10.7"]) ""
      then Err (ErrUnknownUrl ArchitectureArm64 version)
      else if String.eqb (index findAllDockerHashesArm64 "20.10.7") ""
      then Err (ErrUnknownHash ArchitectureArm64 version)
      else Ok (Sprintf dockerVersionUrlArm64 ["20.10.7"],
               index findAllDockerHashesArm64 "20.10.7"))
  /\ (index findAllContainerdHashesAmd64 version = "" ->
      forall arch : Architecture,
        findContainerdVersionUrlHash arch version
        = Err (ErrUnknownUrlAndHash arch version)).
Proof.
  intros Hm. split; [reflexivity|]. split.
  - intros Hin. rewrite arm64_resolution by assumption.
    rewrite Hm. reflexivity.
  - intros Hh arch. by apply unknown_resolution.
Qed.

(** C3 (amended). The legacy floor is that of the two lookups: for a
    version that parses below 1.3.4, [findContainerdVersionUrl] and
    [findContainerdVersionHash] fail with the unsupported-legacy-version
    error for every architecture.  Resolution as a whole fails as well,
    for every architecture, but with the unknown-url-and-hash error: it
    looks the version up in the tables first, and no key of theirs parses
    below 1.3.4. *)
Theorem legacy_floor (arch : Architecture) (version : string) (sv : semver.Version) :
  semver.ParseTolerant version = Some sv ->
  semver.LT sv (semver.MustParse "1.3.4") = true ->
  findContainerdVersionUrl arch version = Err (ErrLegacyVersion version)
  /\ findContainerdVersionHash arch version = Err (ErrLegacyVersion version)
  /\ findContainerdVersionUrlHash arch version = Err (ErrUnknownUrlAndHash arch version)
  /\ forall (c : kops.Cluster) (containerd : kops.ContainerdConfig)
        (assetBuilder : AssetBuilder),
      kops.Containerd (kops.Spec c) = Some containerd ->
      packagesOverride containerd arch = None ->
      kops.Version containerd = Some version ->
      findContainerdAsset c assetBuilder arch = Err (ErrUnknownUrlAndHash arch version).
Proof.
  intros Hparse Hlt.
  assert (supported version = false) as Hno
    by (unfold supported; rewrite Hparse, Hlt; reflexivity).
  destruct (unsupported_unknown version Hno) as [Hh Hm].
  assert (findContainerdVersionUrlHash arch version
          = Err (ErrUnknownUrlAndHash arch version)) as Hres
    by (by apply unknown_resolution).
  repeat split.
  - unfold findContainerdVersionUrl. rewrite Hparse, Hlt. reflexivity.
  - unfold findContainerdVersionHash. rewrite Hparse, Hlt. reflexivity.
  - exact Hres.
  - intros c containerd assetBuilder Hc Ho Hv.
    rewrite (asset_by_version c containerd) by assumption.
    rewrite Hv, StringValue_Some. cbn zeta.
    destruct (String.eqb_spec version "") as [->|_]; [discriminate Hparse|].
    rewrite Hres. reflexivity.
Qed.

(** C4 (amended). The unparseable-version error is that of the two
    lookups: for a version that does not parse, [findContainerdVersionUrl]
    and [findContainerdVersionHash] fail with it for every architecture.
    Resolution as a whole fails as well, but with the unknown-url-and-hash
    error (and with the missing-version error for the empty string): the
    version is looked up in the tables before it is parsed, and every key
    of theirs parses. *)
Theorem invalid_version (arch : Architecture) (version : string) :
  semver.ParseTolerant version = None ->
  findContainerdVersionUrl arch version = Err (ErrParseVersion version)
  /\ findContainerdVersionHash arch version = Err (ErrParseVersion version)
  /\ findContainerdVersionUrlHash arch version = Err (ErrUnknownUrlAndHash arch version)
  /\ forall (c : kops.Cluster) (containerd : kops.ContainerdConfig)
        (assetBuilder : AssetBuilder),
      kops.Containerd (kops.Spec c) = Some containerd ->
      packagesOverride containerd arch = None ->
      kops.Version containerd = Some version ->
      findContainerdAsset c assetBuilder arch =
      if String.eqb version "" then Err ErrNoContainerdVersion
      else Err (ErrUnknownUrlAndHash arch version).
Proof.
  intros Hparse.
  assert (supported version = false) as Hno
    by (unfold supported; rewrite Hparse; reflexivity).
  destruct (unsupported_unknown version Hno) as [Hh Hm].
  assert (findContainerdVersionUrlHash arch version
          = Err (ErrUnknownUrlAndHash arch version)) as Hres
    by (by apply unknown_resolution).
  repeat split.
  - unfold findContainerdVersionUrl. rewrite Hparse. reflexivity.
  - unfold findContainerdVersionHash. rewrite Hparse. reflexivity.
  - exact Hres.
  - intros c containerd assetBuilder Hc Ho Hv.
    rewrite (asset_by_version c containerd) by assumption.
    rewrite Hv, StringValue_Some. cbn zeta.
    rewrite Hres. reflexivity.
Qed.

(** C5. Template switch: a version with an entry in the amd64 hash table
    parses, to 1.3.4 or above; resolved for amd64, its URL is the current
    template (github.com/containerd releases) filled with the version
    string when it parses to 1.3.8 or above, and the legacy template
    (storage.googleapis.com/cri-containerd-release) when it parses below
    1.3.8; the hash is the table's entry for that very string either
    way. *)
Theorem template_switch (version : string) :
  nonempty (index findAllContainerdHashesAmd64 version) = true ->
  exists sv : semver.Version,
    semver.ParseTolerant version = Some sv
    /\ semver.GTE sv (semver.MustParse "1.3.4") = true
    /\ (semver.GTE sv (semver.MustParse "1.3.8") = true ->
        findContainerdVersionUrlHash ArchitectureAmd64 version =
        Ok ("https://github.com/containerd/containerd/releases/download/v" +:+ version
              +:+ "/cri-containerd-cni-" +:+ version +:+ "-linux-amd64.tar.gz",
            index findAllContainerdHashesAmd64 version))
    /\ (semver.LT sv (semver.MustParse "1.3.8") = true ->
        findContainerdVersionUrlHash ArchitectureAmd64 version =
        Ok ("https://storage.googleapis.com/cri-containerd-release/cri-containerd-"
              +:+ version +:+ ".linux-amd64.tar.gz",
            index findAllContainerdHashesAmd64 version)).
Proof.
  intros Hin.
  destruct (supported_inv version) as (sv & Hparse & Hge); [apply supported_known; auto|].
  exists sv. split; [assumption|]. split.
  - rewrite LT_GTE in Hge. by apply negb_false_iff.
  - split; intros Hsw; rewrite (amd64_resolution version sv) by assumption.
    + rewrite Hsw. by rewrite current_template.
    + rewrite LT_GTE in Hsw. apply negb_true_iff in Hsw.
      rewrite Hsw. by rewrite legacy_template.
Qed.

(** C6. The fallback of 1.4.3: containerd 1.4.3 is mapped to Docker
    20.10.0, and resolving it for arm64 returns the arm64 Docker URL of
    20.10.0 and the hash that the arm64 Docker table has for 20.10.0
    (Docker's side has both: the URL format gives a URL for 20.10.0 and the
    table a hash). *)
Theorem fallback_1_4_3 :
  Sprintf dockerVersionUrlArm64 ["20.10.0"] <> "" ->
  index findAllDockerHashesArm64 "20.10.0" <> "" ->
  index findAllContainerdDockerMappings "1.4.3" = "20.10.0"
  /\ findContainerdVersionUrlHash ArchitectureArm64 "1.4.3" =
     Ok (Sprintf dockerVersionUrlArm64 ["20.10.0"],
         index findAllDockerHashesArm64 "20.10.0")
  /\ forall (c : kops.Cluster) (containerd : kops.ContainerdConfig)
        (assetBuilder : AssetBuilder),
      kops.Containerd (kops.Spec c) = Some containerd ->
      packagesOverride containerd ArchitectureArm64 = None ->
      kops.Version containerd = Some "1.4.3" ->
      findContainerdAsset c assetBuilder ArchitectureArm64 =
      findAssetsUrlHash assetBuilder (Sprintf dockerVersionUrlArm64 ["20.10.0"])
        (index findAllDockerHashesArm64 "20.10.0").
Proof.
  intros Hurl Hhash.
  assert (findContainerdVersionUrlHash ArchitectureArm64 "1.4.3" =
          Ok (Sprintf dockerVersionUrlArm64 ["20.10.0"],
              index findAllDockerHashesArm64 "20.10.0")) as Hres.
  { rewrite arm64_resolution by reflexivity.
    change (index findAllContainerdDockerMappings "1.4.3") with "20.10.0".
    change (nonempty "20.10.0") with true. cbn beta iota zeta.
    apply String.eqb_neq in Hurl, Hhash. rewrite Hurl, Hhash. reflexivity. }
  split; [reflexivity|]. split; [exact Hres|].
  intros c containerd assetBuilder Hc Ho Hv.
  rewrite (asset_by_version c containerd) by assumption.
  rewrite Hv, StringValue_Some. cbn zeta.
  change (String.eqb "1.4.3" "") with false. cbn iota.
  rewrite Hres. reflexivity.
Qed.

(** C7. The native 1.4.9: resolving containerd 1.4.9 for amd64 succeeds
    with the hash 9911479f...3073bb and the current-template URL, whose
    text contains v1.4.9. *)
Theorem native_1_4_9 :
  let url :=
    "https://github.com/containerd/containerd/releases/download/v1.4.9/cri-containerd-cni-1.4.9-linux-amd64.tar.gz" in
  let hash := "9911479f86012d6eab7e0f532da8f807a8b0f555ee09ef89367d8c31243073bb" in
  findContainerdVersionUrlHash ArchitectureAmd64 "1.4.9" = Ok (url, hash)
  /\ url = Sprintf containerdVersionUrlAmd64 ["1.4.9"; "1.4.9"]
  /\ Contains url "v1.4.9" = true
  /\ forall (c : kops.Cluster) (containerd : kops.ContainerdConfig)
        (assetBuilder : AssetBuilder),
      kops.Containerd (kops.Spec c) = Some containerd ->
      packagesOverride containerd ArchitectureAmd64 = None ->
      kops.Version containerd = Some "1.4.9" ->
      findContainerdAsset c assetBuilder ArchitectureAmd64 =
      findAssetsUrlHash assetBuilder url hash.
Proof.
  intros url hash.
  assert (findContainerdVersionUrlHash ArchitectureAmd64 "1.4.9" = Ok (url, hash))
    as Hres by (vm_compute; reflexivity).
  split; [exact Hres|]. split; [reflexivity|]. split; [reflexivity|].
  intros c containerd assetBuilder Hc Ho Hv.
  rewrite (asset_by_version c containerd) by assumption.
  rewrite Hv, StringValue_Some. cbn zeta.
  change (String.eqb "1.4.9" "") with false. cbn iota.
  rewrite Hres. reflexivity.
Qed.

End resolver_properties.

(** *** The resolver on the example instances *)

Section resolver_examples.

Import examples.

(** The override wins although 1.4.9 has an amd64 hash of its own. *)
Lemma override_precedence_witness :
  nonempty (index findAllContainerdHashesAmd64 "1.4.9") = true
  /\ findContainerdAsset (cluster (Some override_amd64) (Some "1.4.9")) tt
       ArchitectureAmd64
     = Ok ("https://mirror.example.com/containerd/cri-containerd-cni-linux-amd64.tar.gz",
           "7c0e3e2d1b9f4a5c6d7e8f90a1b2c3d4e5f60718293a4b5c6d7e8f9012345678").
Proof.
  split; [reflexivity|].
  refine (proj1 (override_precedence (cluster (Some override_amd64) (Some "1.4.9"))
                   _ override_amd64 tt ArchitectureAmd64 _ _ eq_refl eq_refl _)).
  left. repeat split.
Defined.

(** An override that applies to amd64 only is not one for arm64, and one
    with a URL but no hash is none at all. *)
Lemma partial_override_falls_through_witness :
  findContainerdAsset (cluster (Some url_only_amd64) (Some "1.4.9")) tt ArchitectureAmd64
  = findContainerdAsset (cluster None (Some "1.4.9")) tt ArchitectureAmd64.
Proof.
  refine (partial_override_falls_through
            (cluster (Some url_only_amd64) (Some "1.4.9")) _ url_only_amd64 tt
            ArchitectureAmd64 eq_refl eq_refl _ _).
  - intros (_ & _ & [h Hh]). discriminate Hh.
  - intros (Ha & _). discriminate Ha.
Defined.

Lemma fallback_default_witness :
  index findAllContainerdDockerMappings "1.4.9" = ""
  /\ findContainerdVersionUrlHash ArchitectureArm64 "1.4.9" =
     Ok ("https://download.docker.com/linux/static/stable/aarch64/docker-20.10.7.tgz",
         "be8c9a5a06ebec8fb1d36e867cd00fb5777746a9812a0cae2966778ff899c525").
Proof.
  split; [reflexivity|].
  exact (proj1 (proj2 (fallback_default "1.4.9" eq_refl)) eq_refl).
Defined.

(** C2, as stated, fails on 1.6.0: it has no mapping, the default's Docker
    version 20.10.7 has its arm64 hash, and yet resolution for arm64 fails. *)
Lemma fallback_default_counterexample :
  index findAllContainerdDockerMappings "1.6.0" = ""
  /\ index findAllDockerHashesArm64
       (index findAllContainerdDockerMappings containerdFallbackVersion)
     = "be8c9a5a06ebec8fb1d36e867cd00fb5777746a9812a0cae2966778ff899c525"
  /\ findContainerdVersionUrlHash ArchitectureArm64 "1.6.0"
     = Err (ErrUnknownUrlAndHash "arm64" "1.6.0")
  /\ ~ (forall (D : DockerPackages) (version : string),
          index findAllContainerdDockerMappings version = "" ->
          let dv := index findAllContainerdDockerMappings containerdFallbackVersion in
          findContainerdVersionUrlHash ArchitectureArm64 version
          = Ok (Sprintf dockerVersionUrlArm64 [dv], index findAllDockerHashesArm64 dv)
          \/ (is_err (findContainerdVersionUrlHash ArchitectureArm64 version) = true
              /\ index findAllDockerHashesArm64 dv = "")).
Proof.
  split; [reflexivity|]. split; [reflexivity|]. split; [reflexivity|].
  intros Hclaim.
  destruct (Hclaim docker "1.6.0" eq_refl) as [Hok|[_ Hnone]]; discriminate.
Qed.

Lemma legacy_floor_witness :
  semver.ParseTolerant "v1.2" = Some (semver.plain 1 2 0)
  /\ findContainerdVersionUrl ArchitectureArm64 "v1.2" = Err (ErrLegacyVersion "v1.2")
  /\ findContainerdVersionUrlHash ArchitectureArm64 "v1.2"
     = Err (ErrUnknownUrlAndHash "arm64" "v1.2").
Proof.
  split; [reflexivity|].
  pose proof (legacy_floor ArchitectureArm64 "v1.2" (semver.plain 1 2 0) eq_refl eq_refl)
    as (Hurl & _ & Hres & _).
  exact (conj Hurl Hres).
Defined.

(** C3, as stated, fails on 1.2.0: it parses below 1.3.4, and resolution
    fails with the unknown-url-and-hash error, not the legacy one. *)
Lemma legacy_floor_counterexample :
  semver.ParseTolerant "1.2.0" = Some (semver.plain 1 2 0)
  /\ semver.LT (semver.plain 1 2 0) (semver.MustParse "1.3.4") = true
  /\ findContainerdAsset (cluster None (Some "1.2.0")) tt ArchitectureAmd64
     = Err (ErrUnknownUrlAndHash "amd64" "1.2.0")
  /\ ~ (forall (D : DockerPackages) (A : AssetsHelper) (c : kops.Cluster)
          (containerd : kops.ContainerdConfig) (assetBuilder : AssetBuilder)
          (arch : Architecture) (version : string) (sv : semver.Version),
          kops.Containerd (kops.Spec c) = Some containerd ->
          packagesOverride containerd arch = None ->
          kops.Version containerd = Some version ->
          semver.ParseTolerant version = Some sv ->
          semver.LT sv (semver.MustParse "1.3.4") = true ->
          findContainerdAsset c assetBuilder arch = Err (ErrLegacyVersion version)).
Proof.
  split; [reflexivity|]. split; [reflexivity|]. split; [reflexivity|].
  intros Hclaim.
  specialize (Hclaim docker assets (cluster None (Some "1.2.0")) _ tt
                ArchitectureAmd64 "1.2.0" _ eq_refl eq_refl eq_refl eq_refl eq_refl).
  discriminate Hclaim.
Qed.

Lemma invalid_version_witness :
  semver.ParseTolerant "latest" = None
  /\ findContainerdVersionUrl ArchitectureAmd64 "latest" = Err (ErrParseVersion "latest")
  /\ findContainerdVersionUrlHash ArchitectureAmd64 "latest"
     = Err (ErrUnknownUrlAndHash "amd64" "latest").
Proof.
  split; [reflexivity|].
  pose proof (invalid_version ArchitectureAmd64 "latest" eq_refl) as (Hurl & _ & Hres & _).
  exact (conj Hurl Hres).
Defined.

(** C4, as stated, fails on the version "latest": it does not parse, and
    resolution fails with the unknown-url-and-hash error, not the
    unparseable-version one. *)
Lemma invalid_version_counterexample :
  semver.ParseTolerant "latest" = None
  /\ findContainerdAsset (cluster None (Some "latest")) tt ArchitectureAmd64
     = Err (ErrUnknownUrlAndHash "amd64" "latest")
  /\ ~ (forall (D : DockerPackages) (A : AssetsHelper) (c : kops.Cluster)
          (containerd : kops.ContainerdConfig) (assetBuilder : AssetBuilder)
          (arch : Architecture) (version : string),
          kops.Containerd (kops.Spec c) = Some containerd ->
          packagesOverride containerd arch = None ->
          kops.Version containerd = Some version ->
          semver.ParseTolerant version = None ->
          findContainerdAsset c assetBuilder arch = Err (ErrParseVersion version)).
Proof.
  split; [reflexivity|]. split; [reflexivity|].
  intros Hclaim.
  specialize (Hclaim docker assets (cluster None (Some "latest")) _ tt
                ArchitectureAmd64 "latest" eq_refl eq_refl eq_refl eq_refl).
  discriminate Hclaim.
Qed.

Lemma template_switch_witness :
  findContainerdVersionUrlHash ArchitectureAmd64 "1.3.4" =
    Ok ("https://storage.googleapis.com/cri-containerd-release/cri-containerd-1.3.4.linux-amd64.tar.gz",
        "4616971c3ad21c24f2f2320fa1c085577a91032a068dd56a41c7c4b71a458087")
  /\ findContainerdVersionUrlHash ArchitectureAmd64 "1.3.9" =
    Ok ("https://github.com/containerd/containerd/releases/download/v1.3.9/cri-containerd-cni-1.3.9-linux-amd64.tar.gz",
        "96663699e0f888fbf232ae6629a367aa7421f6b95044e7ee5d4d4e02841fac75").
Proof.
  split.
  - destruct (template_switch "1.3.4" eq_refl) as (sv & Hparse & _ & _ & Hlegacy).
    apply Hlegacy. injection Hparse as <-. reflexivity.
  - destruct (template_switch "1.3.9" eq_refl) as (sv & Hparse & _ & Hcurrent & _).
    apply Hcurrent. injection Hparse as <-. reflexivity.
Defined.

Lemma fallback_1_4_3_witness :
  findContainerdVersionUrlHash ArchitectureArm64 "1.4.3" =
    Ok ("https://download.docker.com/linux/static/stable/aarch64/docker-20.10.0.tgz",
        "0000000000000000000000000000000000000000000000000000000020100000").
Proof.
  refine (proj1 (proj2 (fallback_1_4_3 _ _))); discriminate.
Defined.

End resolver_examples.

(** ** The fetcher *)

Section fetcher_properties.

Import nodeup.

Context `{Host}.

Lemma attempt_unfold (file hash url cmd : string) (m : Machine) :
  attempt file hash url cmd m =
  let r := transfer (history m) cmd url (files m) in
  let m1 := {| files := r.2; history := history m ++ [Transfer cmd url] |} in
  if negb r.1 then GoesOn m1
  else if negb (validate_hash r.2 file hash) then GoesOn (rm_f file m1)
  else Returned 0 m1.
Proof.
  unfold attempt, run.
  destruct (transfer (history m) cmd url (files m)) as [ok fs]. reflexivity.
Qed.

Lemma attempt_failed (file hash url cmd : string) (m : Machine) :
  (transfer (history m) cmd url (files m)).1 = false ->
  attempt file hash url cmd m =
  GoesOn {| files := (transfer (history m) cmd url (files m)).2;
            history := history m ++ [Transfer cmd url] |}.
Proof. intros Hfail. rewrite attempt_unfold. cbn zeta. by rewrite Hfail. Qed.

Lemma attempt_verified (file hash url cmd : string) (m : Machine) :
  (transfer (history m) cmd url (files m)).1 = true ->
  validate_hash (transfer (history m) cmd url (files m)).2 file hash = true ->
  attempt file hash url cmd m =
  Returned 0 {| files := (transfer (history m) cmd url (files m)).2;
                history := history m ++ [Transfer cmd url] |}.
Proof.
  intros Hok Hvalid. rewrite attempt_unfold. cbn zeta. by rewrite Hok, Hvalid.
Qed.

(** A download that does not verify is removed, and the loop goes on. *)
Lemma attempt_unverified (file hash url cmd : string) (m : Machine) :
  (transfer (history m) cmd url (files m)).1 = true ->
  validate_hash (transfer (history m) cmd url (files m)).2 file hash = false ->
  exists m', attempt file hash url cmd m = GoesOn m'
             /\ files m' !! file = None
             /\ history m' = history m ++ [Transfer cmd url; Remove file].
Proof.
  intros Hok Hbad. rewrite attempt_unfold. cbn zeta. rewrite Hok, Hbad.
  eexists. split; [reflexivity|]. split.
  - apply lookup_delete_eq.
  - cbn. by rewrite <- app_assoc.
Qed.

Lemma attempt_sound (file hash url cmd : string) (m : Machine) :
  sound file hash m (attempt file hash url cmd m).
Proof.
  rewrite attempt_unfold. cbn zeta.
  destruct (transfer (history m) cmd url (files m)) as [[] fs]; cbn.
  - destruct (validate_hash fs file hash) eqn:Hvalid; cbn.
    + split; [reflexivity|]. split; [assumption|]. by exists [], cmd, url.
    + exists [Transfer cmd url; Remove file]. by rewrite <- app_assoc.
  - by exists [Transfer cmd url].
Qed.

(** [sound] passes from one piece to the piece run after it. *)
Lemma sound_then (file hash : string) (m m1 : Machine) (c : Control) :
  (exists evs, history m1 = history m ++ evs) ->
  sound file hash m1 c -> sound file hash m c.
Proof.
  intros [evs Hevs]. destruct c as [status m'|m']; cbn.
  - intros (Hstatus & Hvalid & evs' & cmd & url & Hh).
    split; [assumption|]. split; [assumption|].
    exists (evs ++ evs'), cmd, url. rewrite Hh, Hevs. by rewrite <- !app_assoc.
  - intros [evs' Hh]. exists (evs ++ evs'). rewrite Hh, Hevs. by rewrite <- app_assoc.
Qed.

Lemma for_cmd_sound (file hash url : string) (cmds : list string) (m : Machine) :
  sound file hash m (for_cmd file hash url cmds m).
Proof.
  revert m. induction cmds as [|cmd cmds IH]; intros m; cbn.
  - exists []. by rewrite app_nil_r.
  - pose proof (attempt_sound file hash url cmd m) as Hatt.
    destruct (attempt file hash url cmd m) as [status m'|m']; [assumption|].
    eapply sound_then; [exact Hatt | apply IH].
Qed.

Lemma for_url_sound (file hash : string) (urls : list string) (m : Machine) :
  sound file hash m (for_url file hash urls m).
Proof.
  revert m. induction urls as [|url urls IH]; intros m; cbn [for_url sound].
  - exists []. by rewrite app_nil_r.
  - pose proof (for_cmd_sound file hash url (commands file) m) as Hcmds.
    destruct (for_cmd file hash url (commands file) m) as [status m'|m']; [assumption|].
    eapply sound_then; [exact Hcmds | apply IH].
Qed.

Lemma while_true_sound (passes : nat) (file hash : string) (urls : list string)
    (m : Machine) :
  sound file hash m (while_true passes file hash urls m).
Proof.
  revert m. induction passes as [|n IH]; intros m; cbn [while_true sound].
  - exists []. by rewrite app_nil_r.
  - pose proof (for_url_sound file hash urls m) as Hpass.
    destruct (for_url file hash urls m) as [status m'|m']; [assumption|].
    eapply sound_then; [|apply IH].
    destruct Hpass as [evs Hevs]. exists (evs ++ [Sleep 60]).
    cbn. rewrite Hevs. by rewrite <- app_assoc.
Qed.

(** A hash check that passes for a digest that is not empty has read a
    file with that digest. *)
Lemma validate_hash_file (fs : FS) (file hash : string) :
  validate_hash fs file hash = true -> hash <> "" ->
  exists bytes, fs !! file = Some bytes /\ sha256sum bytes = hash.
Proof.
  unfold validate_hash. intros Heq Hne. apply String.eqb_eq in Heq.
  destruct (fs !! file) as [bytes|]; [by exists bytes | congruence].
Qed.

(** Splitting the two loops over lists. *)
Lemma for_cmd_app (file hash url : string) (cmds1 cmds2 : list string) (m : Machine) :
  for_cmd file hash url (cmds1 ++ cmds2) m =
  match for_cmd file hash url cmds1 m with
  | Returned status m' => Returned status m'
  | GoesOn m' => for_cmd file hash url cmds2 m'
  end.
Proof.
  revert m. induction cmds1 as [|cmd cmds1 IH]; intros m; cbn; [reflexivity|].
  destruct (attempt file hash url cmd m); [reflexivity | apply IH].
Qed.

Lemma for_url_app (file hash : string) (urls1 urls2 : list string) (m : Machine) :
  for_url file hash (urls1 ++ urls2) m =
  match for_url file hash urls1 m with
  | Returned status m' => Returned status m'
  | GoesOn m' => for_url file hash urls2 m'
  end.
Proof.
  revert m. induction urls1 as [|url urls1 IH]; intros m; cbn [for_url app]; [reflexivity|].
  destruct (for_cmd file hash url (commands file) m); [reflexivity | apply IH].
Qed.

(** Commands that all fail on a URL are all tried, in order. *)
Lemma for_cmd_all_failed (file hash url : string) (cmds : list string) (m : Machine) :
  (forall h fs cmd, cmd ∈ cmds -> (transfer h cmd url fs).1 = false) ->
  exists m', for_cmd file hash url cmds m = GoesOn m'
             /\ history m' = history m ++ map (fun cmd => Transfer cmd url) cmds.
Proof.
  revert m. induction cmds as [|cmd cmds IH]; intros m Hfail; cbn.
  - exists m. by rewrite app_nil_r.
  - rewrite attempt_failed by (apply Hfail; left).
    edestruct IH as (m' & -> & Hh); [intros; apply Hfail; by right|].
    exists m'. split; [reflexivity|]. rewrite Hh. cbn. by rewrite <- app_assoc.
Qed.

(** URLs on which every command fails are all tried, in order. *)
Lemma for_url_all_failed (file hash : string) (urls : list string) (m : Machine) :
  (forall h fs cmd url,
      url ∈ urls -> cmd ∈ commands file -> (transfer h cmd url fs).1 = false) ->
  exists m', for_url file hash urls m = GoesOn m'
             /\ history m' = history m ++ pass file urls.
Proof.
  revert m. induction urls as [|url urls IH]; intros m Hfail; cbn [for_url pass flat_map].
  - exists m. by rewrite app_nil_r.
  - destruct (for_cmd_all_failed file hash url (commands file) m) as (m1 & -> & Hh1).
    { intros. apply Hfail; [left | assumption]. }
    edestruct IH as (m' & -> & Hh); [intros; apply Hfail; [by right | assumption]|].
    exists m'. split; [reflexivity|]. rewrite Hh, Hh1. by rewrite <- app_assoc.
Qed.

Lemma while_true_all_failed (passes : nat) (file hash : string) (urls : list string)
    (m : Machine) :
  (forall h fs cmd url,
      url ∈ urls -> cmd ∈ commands file -> (transfer h cmd url fs).1 = false) ->
  exists m', while_true passes file hash urls m = GoesOn m'
             /\ history m' = history m ++ failed_passes passes file urls.
Proof.
  intros Hfail. revert m. induction passes as [|n IH]; intros m; cbn [while_true sound].
  - exists m. by rewrite app_nil_r.
  - destruct (for_url_all_failed file hash urls m Hfail) as (m1 & -> & Hh1).
    destruct (IH (sleep 60 m1)) as (m' & -> & Hh).
    exists m'. split; [reflexivity|]. rewrite Hh. cbn. rewrite Hh1.
    by rewrite <- !app_assoc.
Qed.


(** C9. Mirror fallback, for a target name that is one plain word and a URL
    list in plain text: let the URL list be some mirrors on which every
    command fails, then a mirror [good], then any others, and let the
    commands be some that fail on [good], then one that succeeds on it and
    leaves a file that passes the hash check.  Started on a node whose
    target file is absent or fails the check, [download-or-bust] returns
    within its first pass, with status 0 and the check passed, having run
    every command on every failing mirror, in the order of the list, and
    then the commands on [good] up to the one that succeeds, and nothing
    else (no sleep).  The commands are four, in this order: curl
    compressed, wget compressed, curl plain, wget plain.  In general: a
    transfer that succeeds but does not pass the check has its file removed
    and does not return; the function returns only with the check passed; a
    pass in which nothing returns is followed by a sleep of 60 seconds and
    another pass; and while no transfer succeeds this goes on for any
    number of passes. *)
Theorem mirror_fallback (passes : nat) (file hash urls : string) (m : Machine)
    (bad : list string) (good : string) (others : list string)
    (before : list string) (cmd : string) (after : list string) :
  shell_word file = true ->
  shell_text urls = true ->
  split_commas urls = bad ++ good :: others ->
  commands file = before ++ cmd :: after ->
  files m !! file = None \/ validate_hash (files m) file hash = false ->
  (forall h fs c url,
      url ∈ bad -> c ∈ commands file -> (transfer h c url fs).1 = false) ->
  (forall h fs c, c ∈ before -> (transfer h c good fs).1 = false) ->
  (forall h fs,
      (transfer h cmd good fs).1 = true
      /\ validate_hash (transfer h cmd good fs).2 file hash = true) ->
  (exists m' : Machine,
      download_or_bust (S passes) file hash urls m = Returned 0 m'
      /\ validate_hash (files m') file hash = true
      /\ history m' =
         history m
         ++ (match files m !! file with Some _ => [Remove file] | None => [] end)
         ++ pass file bad
         ++ map (fun c => Transfer c good) before
         ++ [Transfer cmd good])
  /\ commands file =
     [ "curl -f --compressed -Lo " +:+ file
         +:+ " --connect-timeout 20 --retry 6 --retry-delay 10";
       "wget --compression=auto -O " +:+ file
         +:+ " --connect-timeout=20 --tries=6 --wait=10";
       "curl -f -Lo " +:+ file +:+ " --connect-timeout 20 --retry 6 --retry-delay 10";
       "wget -O " +:+ file +:+ " --connect-timeout=20 --tries=6 --wait=10" ]
  /\ (forall (m0 : Machine) (url0 cmd0 : string),
        (transfer (history m0) cmd0 url0 (files m0)).1 = true ->
        validate_hash (transfer (history m0) cmd0 url0 (files m0)).2 file hash = false ->
        exists m1, attempt file hash url0 cmd0 m0 = GoesOn m1
                   /\ files m1 !! file = None
                   /\ history m1 = history m0 ++ [Transfer cmd0 url0; Remove file])
  /\ (forall (n status : nat) (m0 m1 : Machine),
        download_or_bust n file hash urls m0 = Returned status m1 ->
        validate_hash (files m1) file hash = true)
  /\ (forall (n : nat) (m0 m1 : Machine),
        for_url file hash (split_commas urls) m0 = GoesOn m1 ->
        while_true (S n) file hash (split_commas urls) m0
        = while_true n file hash (split_commas urls) (sleep 60 m1)
        /\ history (sleep 60 m1) = history m1 ++ [Sleep 60])
  /\ (forall (n : nat) (m0 : Machine),
        (forall h fs c url,
            url ∈ split_commas urls -> c ∈ commands file ->
            (transfer h c url fs).1 = false) ->
        exists m1, while_true n file hash (split_commas urls) m0 = GoesOn m1
                   /\ history m1 = history m0 ++ failed_passes n file (split_commas urls)).
Proof.
  intros _ _ Hurls Hcmds Hstart Hbad Hbefore Hgood.
  split; [|split; [reflexivity|]; split; [|split; [|split]]].
  - (* the pass that succeeds *)
    set (m0 := match files m !! file with Some _ => rm_f file m | None => m end).
    assert (download_or_bust (S passes) file hash urls m
            = while_true (S passes) file hash (split_commas urls) m0) as Hloop.
    { unfold download_or_bust, m0.
      destruct (files m !! file) as [bytes|] eqn:Hfile; [|reflexivity].
      destruct Hstart as [Hnone|Hinvalid]; [discriminate|]. by rewrite Hinvalid. }
    assert (history m0
            = history m
              ++ (match files m !! file with Some _ => [Remove file] | None => [] end))
      as Hh0.
    { unfold m0. destruct (files m !! file); [reflexivity|]. by rewrite app_nil_r. }
    destruct (for_url_all_failed file hash bad m0 Hbad) as (m1 & Hpass1 & Hh1).
    destruct (for_cmd_all_failed file hash good before m1) as (m2 & Hpass2 & Hh2);
      [intros; by apply Hbefore|].
    destruct (Hgood (history m2) (files m2)) as [Hok Hvalid].
    eexists. split; [|split].
    + rewrite Hloop, Hurls. cbn [while_true].
      rewrite for_url_app, Hpass1. cbn [for_url].
      rewrite Hcmds, for_cmd_app, Hpass2. cbn [for_cmd].
      rewrite attempt_verified by assumption. reflexivity.
    + exact Hvalid.
    + cbn [history]. rewrite Hh2, Hh1, Hh0. by rewrite <- !app_assoc.
  - intros m0 url0 cmd0. apply attempt_unverified.
  - intros n status m0 m1 Hret. unfold download_or_bust in Hret.
    destruct (files m0 !! file) as [bytes|].
    + destruct (validate_hash (files m0) file hash) eqn:Hvalid; cbn in Hret.
      * by injection Hret as _ <-.
      * pose proof (while_true_sound n file hash (split_commas urls) (rm_f file m0)) as Hs.
        rewrite Hret in Hs. apply Hs.
    + pose proof (while_true_sound n file hash (split_commas urls) m0) as Hs.
      rewrite Hret in Hs. apply Hs.
  - intros n m0 m1 Hpass. cbn [while_true]. by rewrite Hpass.
  - intros n m0. apply while_true_all_failed.
Qed.

End fetcher_properties.

(** *** The fetcher on the example nodes *)

Section fetcher_examples.

Import nodeup examples.


(** With the first mirror down, the artifact comes from the second one, by
    the first command, after the four commands have failed on the first
    mirror. *)
Lemma mirror_fallback_witness :
  exists m' : Machine,
    download_or_bust 1 "nodeup" digest (bad +:+ "," +:+ good) corrupted = Returned 0 m'
    /\ validate_hash (files m') "nodeup" digest = true
    /\ history m' =
       Remove "nodeup"
       :: map (fun c => Transfer c bad) (commands "nodeup")
       ++ [Transfer "curl -f --compressed -Lo nodeup --connect-timeout 20 --retry 6 --retry-delay 10" good].
Proof.
  refine (proj1 (mirror_fallback 0 "nodeup" digest (bad +:+ "," +:+ good) corrupted
                   [bad] good [] [] _ _ _ _ _ _ _ _ _ _)).
  - reflexivity.
  - reflexivity.
  - reflexivity.
  - reflexivity.
  - right. reflexivity.
  - intros h fs c url Hurl _. apply list_elem_of_singleton in Hurl as ->. reflexivity.
  - intros h fs c Hc. by apply elem_of_nil in Hc.
  - intros h fs. split; [reflexivity|].
    cbn [transfer node]. change (String.eqb good good) with true. cbn [snd].
    unfold validate_hash. rewrite lookup_insert_eq. reflexivity.
Defined.

(** A node that is cut off keeps trying: whatever the number of passes, the
    function has not returned, and every pass has ended in the sleep. *)
Lemma offline_keeps_trying (passes : nat) :
  exists m' : Machine,
    download_or_bust (H := offline) passes "nodeup" digest (bad +:+ "," +:+ good) fresh
    = GoesOn m'
    /\ history m' = failed_passes passes "nodeup" [bad; good].
Proof.
  destruct (while_true_all_failed (H := offline) passes "nodeup" digest [bad; good] fresh)
    as (m' & Hloop & Hh); [reflexivity|].
  exists m'. split; [exact Hloop | exact Hh].
Qed.

End fetcher_examples.

(** ** Further properties of the resolver *)

Section resolver_further.

Context `{DockerPackages} `{AssetsHelper}.

Lemma known_nonempty (version : string) :
  nonempty (index findAllContainerdHashesAmd64 version) = true -> version <> "".
Proof. intros Hin ->. discriminate Hin. Qed.

Lemma override_other_arch (containerd : kops.ContainerdConfig) (arch : Architecture) :
  arch <> ArchitectureAmd64 -> arch <> ArchitectureArm64 ->
  packagesOverride containerd arch = None.
Proof.
  intros Hamd Harm. unfold packagesOverride.
  apply String.eqb_neq in Hamd, Harm. rewrite Hamd, Harm.
  by destruct (kops.Packages containerd).
Qed.

(** X1. An architecture other than amd64 and arm64 is an error for every
    version with an amd64 hash: resolution by version returns the
    unknown-arch error, and so does [findContainerdAsset], whatever the
    packages of the cluster override. *)
Theorem unknown_architecture (arch : Architecture) (version : string) :
  arch <> ArchitectureAmd64 -> arch <> ArchitectureArm64 ->
  nonempty (index findAllContainerdHashesAmd64 version) = true ->
  findContainerdVersionUrlHash arch version = Err (ErrUnknownArch arch)
  /\ forall (c : kops.Cluster) (containerd : kops.ContainerdConfig)
       (assetBuilder : AssetBuilder),
      kops.Containerd (kops.Spec c) = Some containerd ->
      kops.Version containerd = Some version ->
      findContainerdAsset c assetBuilder arch = Err (ErrUnknownArch arch).
Proof.
  intros Hamd Harm Hin.
  assert (findContainerdVersionUrlHash arch version = Err (ErrUnknownArch arch)) as Hres.
  { destruct (supported_inv version) as (sv & Hparse & Hge); [apply supported_known; auto|].
    unfold findContainerdVersionUrlHash, findContainerdVersionUrl. rewrite Hin, Hparse, Hge.
    unfold versionUrlSwitch. apply String.eqb_neq in Hamd, Harm.
    rewrite Hamd, Harm. reflexivity. }
  split; [exact Hres|].
  intros c containerd assetBuilder Hc Hv.
  rewrite (asset_by_version c containerd) by auto using override_other_arch.
  rewrite Hv, StringValue_Some. cbn zeta.
  apply known_nonempty, String.eqb_neq in Hin. rewrite Hin, Hres. reflexivity.
Qed.

Lemma amd64_descriptors_ok :
  forallb amd64_descriptor_ok containerdHashesAmd64.*1 = true.
Proof. vm_compute. reflexivity. Qed.

(** X2. Every version of the amd64 hash table resolves for amd64, to a
    descriptor that is well formed: the hash is the table's, 64 lower-case
    hex digits, and the URL is an https URL with the version string in
    it. *)
Theorem amd64_descriptor (version : string) :
  nonempty (index findAllContainerdHashesAmd64 version) = true ->
  exists u h : string,
    findContainerdVersionUrlHash ArchitectureAmd64 version = Ok (u, h)
    /\ h = index findAllContainerdHashesAmd64 version
    /\ is_sha256 h = true
    /\ is_Some (strip "https://" u)
    /\ Contains u version = true.
Proof.
  intros Hin. apply amd64_known, list_elem_of_In in Hin.
  pose proof amd64_descriptors_ok as Hall. rewrite forallb_forall in Hall.
  specialize (Hall version Hin). unfold amd64_descriptor_ok in Hall.
  destruct (findContainerdVersionUrlHash ArchitectureAmd64 version) as [[u h]|];
    [|discriminate].
  apply andb_prop in Hall as [Hall Hcontains].
  apply andb_prop in Hall as [Hall Hhttps].
  apply andb_prop in Hall as [Hhash Hsha].
  exists u, h. split; [reflexivity|].
  split; [by apply String.eqb_eq|]. split; [assumption|].
  split; [by apply bool_decide_eq_true in Hhttps | assumption].
Qed.

(** X3. For arm64 the URL and the hash are those of one Docker version: when
    a version with an amd64 hash resolves for arm64, there is a Docker
    version among the targets of the containerd-to-Docker mapping such that
    the URL is the arm64 Docker URL of it and the hash the arm64 Docker hash
    of it, neither empty; no containerd URL is returned for arm64. *)
Theorem arm64_one_docker_version (version u h : string) :
  nonempty (index findAllContainerdHashesAmd64 version) = true ->
  findContainerdVersionUrlHash ArchitectureArm64 version = Ok (u, h) ->
  exists dv : string,
    dv ∈ containerdDockerMappings.*2
    /\ u = Sprintf dockerVersionUrlArm64 [dv]
    /\ h = index findAllDockerHashesArm64 dv
    /\ u <> "" /\ h <> "".
Proof.
  intros Hin. rewrite arm64_resolution by assumption. cbn zeta.
  set (dv := if nonempty (index findAllContainerdDockerMappings version)
             then index findAllContainerdDockerMappings version
             else index findAllContainerdDockerMappings containerdFallbackVersion).
  assert (dv ∈ containerdDockerMappings.*2) as Hdv.
  { unfold dv.
    destruct (nonempty (index findAllContainerdDockerMappings version)) eqn:Hm.
    - apply index_list_to_map in Hm.
      change (index findAllContainerdDockerMappings version)
        with ((version, index findAllContainerdDockerMappings version).2).
      by apply list_elem_of_fmap_2.
    - apply list_elem_of_In. vm_compute. tauto. }
  destruct (String.eqb_spec (Sprintf dockerVersionUrlArm64 [dv]) "") as [|Hu]; [discriminate|].
  destruct (String.eqb_spec (index findAllDockerHashesArm64 dv) "") as [|Hh]; [discriminate|].
  intros [= <- <-]. exists dv. auto.
Qed.

(** X4. Lookup is by the exact string, whatever the parser tolerates: a key
    of the amd64 hash table with a [v] in front parses to the same version
    as the key, and is not resolved, for any architecture. *)
Theorem exact_string_lookup (arch : Architecture) (key : string) :
  key ∈ containerdHashesAmd64.*1 ->
  is_Some (semver.ParseTolerant key)
  /\ semver.ParseTolerant ("v" +:+ key) = semver.ParseTolerant key
  /\ findContainerdVersionUrlHash arch ("v" +:+ key)
     = Err (ErrUnknownUrlAndHash arch ("v" +:+ key)).
Proof.
  intros Hkey. unfold containerdHashesAmd64 in Hkey. simpl in Hkey.
  repeat (apply elem_of_cons in Hkey as [->|Hkey]);
    [..|by apply elem_of_nil in Hkey];
    (split; [eexists; vm_compute; reflexivity|]);
    (split; [vm_compute; reflexivity|]);
    apply unknown_resolution; vm_compute; reflexivity.
Qed.

(** X5. The two lookups for amd64, each on its own: the URL lookup succeeds
    for every version that parses to 1.3.4 or above, with or without a
    hash in the table, and for no other; the hash lookup succeeds for the
    versions of the table, and for no other. *)
Theorem amd64_lookups (version : string) :
  (is_err (findContainerdVersionUrl ArchitectureAmd64 version) = false
   <-> exists sv, semver.ParseTolerant version = Some sv
                  /\ semver.LT sv (semver.MustParse "1.3.4") = false)
  /\ (is_err (findContainerdVersionHash ArchitectureAmd64 version) = false
      <-> nonempty (index findAllContainerdHashesAmd64 version) = true).
Proof.
  split.
  - unfold findContainerdVersionUrl, versionUrlSwitch.
    change (String.eqb ArchitectureAmd64 ArchitectureAmd64) with true. cbn iota.
    destruct (semver.ParseTolerant version) as [sv|].
    + destruct (semver.LT sv (semver.MustParse "1.3.4")) eqn:Hlt.
      * split; [discriminate|]. intros (sv' & [= <-] & Hge). congruence.
      * split; [by exists sv|]. intros _.
        by destruct (semver.GTE sv (semver.MustParse "1.3.8")).
    + split; [discriminate|]. by intros (sv' & ? & _).
  - split.
    + unfold findContainerdVersionHash, versionHashSwitch, nonempty.
      change (String.eqb ArchitectureAmd64 ArchitectureAmd64) with true. cbn iota.
      destruct (semver.ParseTolerant version) as [sv|]; [|discriminate].
      destruct (semver.LT sv (semver.MustParse "1.3.4")); [discriminate|].
      cbn [mbind result_bind].
      by destruct (String.eqb (index findAllContainerdHashesAmd64 version) "").
    + intros Hin.
      destruct (supported_inv version) as (sv & Hparse & Hge);
        [apply supported_known; auto|].
      unfold findContainerdVersionHash, versionHashSwitch. rewrite Hparse, Hge.
      change (String.eqb ArchitectureAmd64 ArchitectureAmd64) with true. cbn iota.
      cbn [mbind result_bind].
      apply negb_true_iff in Hin. by rewrite Hin.
Qed.

End resolver_further.

Section resolver_further_examples.

Import examples scenarios.

Lemma unknown_architecture_witness :
  findContainerdAsset (cluster (Some override_both) (Some "1.4.9")) tt "s390x"
  = Err (ErrUnknownArch "s390x").
Proof.
  refine (proj2 (unknown_architecture "s390x" "1.4.9" _ _ eq_refl)
            (cluster (Some override_both) (Some "1.4.9")) _ tt eq_refl eq_refl);
    discriminate.
Defined.

Lemma amd64_descriptor_witness :
  exists u h : string,
    findContainerdVersionUrlHash ArchitectureAmd64 "1.5.5" = Ok (u, h)
    /\ h = index findAllContainerdHashesAmd64 "1.5.5"
    /\ is_sha256 h = true
    /\ is_Some (strip "https://" u)
    /\ Contains u "1.5.5" = true.
Proof. apply amd64_descriptor. vm_compute. reflexivity. Defined.

Lemma arm64_one_docker_version_witness :
  exists dv : string,
    dv ∈ containerdDockerMappings.*2
    /\ "https://download.docker.com/linux/static/stable/aarch64/docker-20.10.7.tgz"
       = Sprintf dockerVersionUrlArm64 [dv]
    /\ "be8c9a5a06ebec8fb1d36e867cd00fb5777746a9812a0cae2966778ff899c525"
       = index findAllDockerHashesArm64 dv
    /\ "https://download.docker.com/linux/static/stable/aarch64/docker-20.10.7.tgz" <> ""
    /\ "be8c9a5a06ebec8fb1d36e867cd00fb5777746a9812a0cae2966778ff899c525" <> "".
Proof. apply (arm64_one_docker_version "1.5.0"); vm_compute; reflexivity. Defined.

Lemma exact_string_lookup_witness :
  semver.ParseTolerant "v1.4.9" = semver.ParseTolerant "1.4.9"
  /\ findContainerdVersionUrlHash ArchitectureAmd64 "v1.4.9"
     = Err (ErrUnknownUrlAndHash "amd64" "v1.4.9").
Proof.
  refine (proj2 (exact_string_lookup ArchitectureAmd64 "1.4.9" _)).
  apply list_elem_of_In. vm_compute. tauto.
Defined.

End resolver_further_examples.

(** ** Further properties of the fetcher *)

Section split_commas_properties.

Import nodeup.

Lemma push_app (w : string) (ws ws' : list string) :
  push w (ws ++ ws') = push w ws ++ ws'.
Proof. by destruct w. Qed.

Lemma is_sep_split (c : ascii) : is_sep c = is_comma c || is_ifs c.
Proof. unfold is_sep, is_comma, is_ifs. by rewrite !orb_assoc. Qed.

Lemma any_byte_sep (w : string) :
  any_byte is_comma w = false -> any_byte is_ifs w = false ->
  any_byte is_sep w = false.
Proof.
  induction w as [|c w IH]; [reflexivity|]. cbn [any_byte].
  intros [Hc Hw]%orb_false_elim [Hc' Hw']%orb_false_elim.
  rewrite is_sep_split, Hc, Hc'. by apply IH.
Qed.

Lemma any_byte_sep_inv (w : string) :
  any_byte is_sep w = false ->
  any_byte is_comma w = false /\ any_byte is_ifs w = false.
Proof.
  induction w as [|c w IH]; [done|]. cbn [any_byte].
  intros [Hc Hw]%orb_false_elim. rewrite is_sep_split in Hc.
  apply orb_false_elim in Hc as [-> ->]. by apply IH.
Qed.

Lemma any_byte_app (p : ascii -> bool) (a b : string) :
  any_byte p (a +:+ b) = any_byte p a || any_byte p b.
Proof.
  induction a as [|c a IH]; [reflexivity|].
  change (String c a +:+ b) with (String c (a +:+ b)). cbn [any_byte].
  by rewrite IH, orb_assoc.
Qed.

(** The pieces of a split have none of the bytes the whole has not. *)
Lemma split_by_none (p sep : ascii -> bool) (s : string) :
  any_byte p s = false ->
  any_byte p (split_by sep s).1 = false
  /\ Forall (fun w => any_byte p w = false) (split_by sep s).2.
Proof.
  induction s as [|c s IH]; [by split|]. cbn [any_byte split_by].
  intros [Hc Hs]%orb_false_elim. destruct (IH Hs) as [Hw Hws].
  destruct (split_by sep s) as [w ws]. cbn [fst snd] in *.
  destruct (sep c); cbn [fst snd any_byte].
  - split; [reflexivity|]. destruct w; [assumption|]. by constructor.
  - split; [by rewrite Hc|assumption].
Qed.

Lemma fields_by_none (p sep : ascii -> bool) (s : string) :
  any_byte p s = false -> Forall (fun w => any_byte p w = false) (fields_by sep s).
Proof.
  intros Hs. unfold fields_by. destruct (split_by_none p sep s Hs) as [Hw Hws].
  destruct (split_by sep s) as [w ws]. cbn [fst snd] in *.
  destruct w; [assumption|]. by constructor.
Qed.

(** The pieces of a split are not empty and have no separator. *)
Lemma split_by_fields (sep : ascii -> bool) (s : string) :
  any_byte sep (split_by sep s).1 = false
  /\ Forall (fun w => w <> "" /\ any_byte sep w = false) (split_by sep s).2.
Proof.
  induction s as [|c s [Hw Hws]]; [by split|]. cbn [split_by].
  destruct (split_by sep s) as [w ws]. cbn [fst snd] in *.
  destruct (sep c) eqn:Hc; cbn [fst snd any_byte].
  - split; [reflexivity|]. destruct w; [assumption|]. by constructor.
  - split; [by rewrite Hc|assumption].
Qed.

Lemma fields_by_fields (sep : ascii -> bool) (s : string) :
  Forall (fun w => w <> "" /\ any_byte sep w = false) (fields_by sep s).
Proof.
  unfold fields_by. destruct (split_by_fields sep s) as [Hw Hws].
  destruct (split_by sep s) as [w ws]. cbn [fst snd] in *.
  destruct w; [assumption|]. by constructor.
Qed.

Lemma echo_operands_sub (words : list string) : echo_operands words ⊆ words.
Proof.
  induction words as [|w words IH]; cbn [echo_operands]; [done|].
  destruct (echo_option w); [|done]. intros x Hx. right. by apply IH.
Qed.

(** X6. For a URL list in plain text, the list that [split-commas] yields
    has no empty entry and no entry with a comma, a blank, a tab or a
    newline in it. *)
Theorem split_commas_fields (s : string) :
  shell_text s = true -> Forall field (split_commas s).
Proof.
  intros _. unfold split_commas. apply Forall_flat_map, Forall_forall.
  intros word Hword%echo_operands_sub.
  pose proof (fields_by_fields is_ifs s) as Hwords.
  rewrite Forall_forall in Hwords. destruct (Hwords word Hword) as [_ Hifs].
  pose proof (fields_by_fields is_comma word) as Hcomma.
  pose proof (fields_by_none is_ifs is_comma word Hifs) as Hnone.
  rewrite Forall_forall in Hcomma, Hnone. apply Forall_forall.
  intros w Hw. destruct (Hcomma w Hw) as [Hne Hc].
  split; [assumption|]. apply any_byte_sep; [assumption | by apply Hnone].
Qed.

Lemma split_by_app (sep : ascii -> bool) (a s : string) (ws : list string) :
  split_by sep s = ("", ws) ->
  split_by sep (a +:+ s) = ((split_by sep a).1, (split_by sep a).2 ++ ws).
Proof.
  intros Hs. induction a as [|c a IH]; [change ("" +:+ s) with s; by rewrite Hs|].
  change (String c a +:+ s) with (String c (a +:+ s)). cbn [split_by]. rewrite IH.
  destruct (split_by sep a) as [w ws']. cbn [fst snd].
  destruct (sep c); [|reflexivity]. cbn [fst snd]. by rewrite push_app.
Qed.

(** A separator between two strings splits their lists. *)
Lemma fields_by_sep (sep : ascii -> bool) (a b : string) (c : ascii) :
  sep c = true ->
  fields_by sep (a +:+ String c b) = fields_by sep a ++ fields_by sep b.
Proof.
  intros Hc. unfold fields_by.
  rewrite (split_by_app sep a (String c b) (fields_by sep b)).
  - destruct (split_by sep a) as [w ws]. cbn [fst snd]. by rewrite push_app.
  - cbn [split_by]. unfold fields_by.
    destruct (split_by sep b) as [w ws]. by rewrite Hc.
Qed.

Lemma split_by_word (sep : ascii -> bool) (w : string) :
  any_byte sep w = false -> split_by sep w = (w, []).
Proof.
  induction w as [|c w IH]; [reflexivity|]. cbn [any_byte split_by].
  intros [Hc Hw]%orb_false_elim. rewrite (IH Hw), Hc. reflexivity.
Qed.

Lemma fields_by_word (sep : ascii -> bool) (w : string) :
  w <> "" -> any_byte sep w = false -> fields_by sep w = [w].
Proof.
  intros Hne Hw. unfold fields_by. rewrite split_by_word by assumption.
  by destruct w.
Qed.

Lemma fields_by_Join (urls : list string) :
  Forall field urls -> fields_by is_comma (Join urls ",") = urls.
Proof.
  induction 1 as [|url urls [Hne Hurl] Hurls IH]; [reflexivity|].
  apply any_byte_sep_inv in Hurl as [Hcomma _].
  destruct urls as [|url' urls].
  - by apply fields_by_word.
  - change (Join (url :: url' :: urls) ",")
      with (url +:+ String "," (Join (url' :: urls) ",")).
    rewrite fields_by_sep by reflexivity.
    rewrite IH. by rewrite fields_by_word.
Qed.

Lemma Join_no_ifs (urls : list string) :
  Forall field urls -> any_byte is_ifs (Join urls ",") = false.
Proof.
  induction 1 as [|url urls [Hne Hurl] Hurls IH]; [reflexivity|].
  apply any_byte_sep_inv in Hurl as [_ Hifs].
  destruct urls as [|url' urls]; [assumption|].
  change (Join (url :: url' :: urls) ",")
    with (url +:+ String "," (Join (url' :: urls) ",")).
  rewrite any_byte_app, Hifs. cbn [any_byte orb]. exact IH.
Qed.

(** X7. Round trip of a URL list: joined with commas and split again by
    [split-commas], a list of URLs that are not empty and have no comma,
    blank, tab or newline in them comes back as it was, provided the joined
    text is plain and is not as a whole an option of [echo] (a single URL
    such as [-n] is taken by [echo]: the list comes back empty). *)
Theorem split_commas_Join (urls : list string) :
  Forall field urls ->
  shell_text (Join urls ",") = true ->
  echo_option (Join urls ",") = false ->
  split_commas (Join urls ",") = urls.
Proof.
  intros Hurls _ Hecho. unfold split_commas.
  destruct urls as [|url urls]; [reflexivity|].
  rewrite (fields_by_word is_ifs (Join (url :: urls) ",")).
  - cbn [echo_operands]. rewrite Hecho. cbn [flat_map].
    rewrite app_nil_r. by apply fields_by_Join.
  - apply Forall_cons in Hurls as [[Hne _] _].
    destruct urls; [assumption|]. by destruct url.
  - by apply Join_no_ifs.
Qed.

End split_commas_properties.

Section fetcher_further.

Import nodeup.

Context `{Host}.

(** A relation between the node before and after that every step of the
    function keeps is kept by the loop as a whole. *)
Section steps.

Variables (R : Machine -> Machine -> Prop) (file hash : string) (urls : list string).

Hypothesis R_refl : forall m, R m m.
Hypothesis R_trans : forall a b c, R a b -> R b c -> R a c.
Hypothesis R_run :
  forall m cmd url, cmd ∈ commands file -> url ∈ urls -> R m (run cmd url m).2.
Hypothesis R_rm : forall m, R m (rm_f file m).
Hypothesis R_sleep : forall m, R m (sleep 60 m).

Lemma attempt_steps (url cmd : string) (m : Machine) :
  cmd ∈ commands file -> url ∈ urls ->
  R m (machine_of (attempt file hash url cmd m)).
Proof.
  intros Hcmd Hurl. pose proof (R_run m cmd url Hcmd Hurl) as Hrun.
  unfold attempt. destruct (run cmd url m) as [ok m1]. cbn [snd] in Hrun.
  destruct ok; cbn [negb]; [|assumption].
  destruct (validate_hash (files m1) file hash); cbn [negb machine_of]; eauto.
Qed.

Lemma for_cmd_steps (url : string) (cmds : list string) (m : Machine) :
  cmds ⊆ commands file -> url ∈ urls ->
  R m (machine_of (for_cmd file hash url cmds m)).
Proof.
  intros Hcmds Hurl. revert m.
  induction cmds as [|cmd cmds IH]; intros m; cbn [for_cmd]; [apply R_refl|].
  pose proof (attempt_steps url cmd m) as Hatt.
  destruct (attempt file hash url cmd m) as [status m'|m'].
  - apply Hatt; [apply Hcmds; left | assumption].
  - eapply R_trans; [apply Hatt; [apply Hcmds; left | assumption]|].
    apply IH. intros c Hc. apply Hcmds. by right.
Qed.

Lemma for_url_steps (us : list string) (m : Machine) :
  us ⊆ urls -> R m (machine_of (for_url file hash us m)).
Proof.
  intros Hus. revert m.
  induction us as [|url us IH]; intros m; cbn [for_url]; [apply R_refl|].
  pose proof (for_cmd_steps url (commands file) m) as Hcmds.
  destruct (for_cmd file hash url (commands file) m) as [status m'|m'].
  - apply Hcmds; [done | apply Hus; left].
  - eapply R_trans; [apply Hcmds; [done | apply Hus; left]|].
    apply IH. intros u Hu. apply Hus. by right.
Qed.

Lemma while_true_steps (passes : nat) (m : Machine) :
  R m (machine_of (while_true passes file hash urls m)).
Proof.
  revert m. induction passes as [|n IH]; intros m; cbn [while_true]; [apply R_refl|].
  pose proof (for_url_steps urls m) as Hpass.
  destruct (for_url file hash urls m) as [status m'|m'].
  - by apply Hpass.
  - eapply R_trans; [by apply Hpass|]. eapply R_trans; [apply R_sleep | apply IH].
Qed.

End steps.

Lemma download_or_bust_steps (R : Machine -> Machine -> Prop)
    (passes : nat) (file hash urls : string) (m : Machine) :
  (forall m, R m m) ->
  (forall a b c, R a b -> R b c -> R a c) ->
  (forall m cmd url,
      cmd ∈ commands file -> url ∈ split_commas urls -> R m (run cmd url m).2) ->
  (forall m, R m (rm_f file m)) ->
  (forall m, R m (sleep 60 m)) ->
  R m (machine_of (download_or_bust passes file hash urls m)).
Proof.
  intros Hrefl Htrans Hrun Hrm Hsleep. unfold download_or_bust.
  destruct (files m !! file).
  - destruct (validate_hash (files m) file hash); cbn [negb]; [apply Hrefl|].
    eapply Htrans; [apply Hrm|]. by apply while_true_steps.
  - by apply while_true_steps.
Qed.

(** X8. What [download-or-bust] does to the node and nothing else, for a
    target name that is one plain word and a URL list in plain text:
    whatever the passes and the network, the events it adds are transfers
    by one of its four commands from a URL of its list, removals of its
    target file and sleeps of 60 seconds. *)
Theorem download_or_bust_events (passes : nat) (file hash urls : string) (m : Machine) :
  shell_word file = true ->
  shell_text urls = true ->
  exists evs : list Event,
    history (machine_of (download_or_bust passes file hash urls m)) = history m ++ evs
    /\ Forall (allowed file (split_commas urls)) evs.
Proof.
  intros _ _.
  apply (download_or_bust_steps
           (fun a b => exists evs, history b = history a ++ evs
                                   /\ Forall (allowed file (split_commas urls)) evs)).
  - intros a. exists []. by rewrite app_nil_r.
  - intros a b c (evs1 & -> & H1) (evs2 & -> & H2).
    exists (evs1 ++ evs2). split; [by rewrite app_assoc | by apply Forall_app].
  - intros a cmd url Hcmd Hurl. exists [Transfer cmd url]. split.
    + unfold run. by destruct (transfer (history a) cmd url (files a)).
    + by apply Forall_singleton.
  - intros a. exists [Remove file]. split; [reflexivity | by apply Forall_singleton].
  - intros a. exists [Sleep 60]. split; [reflexivity | by apply Forall_singleton].
Qed.

(** X9. The other files of the node are left alone: a path other than the
    target that the transfer commands do not touch holds after
    [download-or-bust] what it held before. *)
Theorem download_or_bust_frame (passes : nat) (file hash urls : string) (m : Machine)
    (path : string) :
  path <> file ->
  (forall h cmd url fs, (transfer h cmd url fs).2 !! path = fs !! path) ->
  files (machine_of (download_or_bust passes file hash urls m)) !! path
  = files m !! path.
Proof.
  intros Hpath Htransfer.
  apply (download_or_bust_steps (fun a b => files b !! path = files a !! path)).
  - reflexivity.
  - intros a b c Hab Hbc. by rewrite Hbc.
  - intros a cmd url _ _. unfold run.
    specialize (Htransfer (history a) cmd url (files a)).
    by destruct (transfer (history a) cmd url (files a)).
  - intros a. by apply lookup_delete_ne.
  - reflexivity.
Qed.

(** A return is a return with the check passed. *)
Lemma returned_valid (passes status : nat) (file hash urls : string) (m m' : Machine) :
  download_or_bust passes file hash urls m = Returned status m' ->
  validate_hash (files m') file hash = true.
Proof.
  unfold download_or_bust. intros Hret.
  destruct (files m !! file) as [bytes|].
  - destruct (validate_hash (files m) file hash) eqn:Hvalid; cbn [negb] in Hret.
    + by injection Hret as _ <-.
    + pose proof (while_true_sound passes file hash (split_commas urls) (rm_f file m)) as Hs.
      rewrite Hret in Hs. apply Hs.
  - pose proof (while_true_sound passes file hash (split_commas urls) m) as Hs.
    rewrite Hret in Hs. apply Hs.
Qed.

(** X10. Fetching twice, for a target name that is one plain word, a URL
    list in plain text and an expected hash that is not empty: on the node
    that [download-or-bust] returned with, another call for the same file
    and hash returns at once with the node unchanged, whatever its URL list
    and the passes allowed, and its exit status is 1: that of the negated
    check before the [return], not 0. *)
Theorem download_or_bust_again (passes passes' status : nat)
    (file hash urls urls' : string) (m m' : Machine) :
  shell_word file = true ->
  shell_text urls = true ->
  hash <> "" ->
  download_or_bust passes file hash urls m = Returned status m' ->
  download_or_bust passes' file hash urls' m' = Returned 1 m'.
Proof.
  intros _ _ Hhash Hret. apply returned_valid in Hret as Hvalid.
  destruct (validate_hash_file _ _ _ Hvalid Hhash) as (bytes & Hfile & _).
  unfold download_or_bust. by rewrite Hfile, Hvalid.
Qed.

(** Commands that all transfer a file with another hash: each transfer is
    followed by the removal of the file. *)
Lemma for_cmd_all_tampered (file hash url : string) (cmds : list string) (m : Machine) :
  (forall h fs cmd,
      cmd ∈ cmds ->
      (transfer h cmd url fs).1 = true
      /\ validate_hash (transfer h cmd url fs).2 file hash = false) ->
  exists m', for_cmd file hash url cmds m = GoesOn m'
             /\ history m' =
                history m ++ flat_map (fun cmd => [Transfer cmd url; Remove file]) cmds.
Proof.
  revert m. induction cmds as [|cmd cmds IH]; intros m Hbad; cbn [for_cmd flat_map].
  - exists m. by rewrite app_nil_r.
  - destruct (Hbad (history m) (files m) cmd) as [Hok Hinvalid]; [left|].
    destruct (attempt_unverified file hash url cmd m Hok Hinvalid) as (m1 & -> & _ & Hh1).
    edestruct IH as (m' & -> & Hh); [intros; apply Hbad; by right|].
    exists m'. split; [reflexivity|]. rewrite Hh, Hh1. by rewrite <- app_assoc.
Qed.

Lemma for_url_all_tampered (file hash : string) (urls : list string) (m : Machine) :
  (forall h fs cmd url,
      url ∈ urls -> cmd ∈ commands file ->
      (transfer h cmd url fs).1 = true
      /\ validate_hash (transfer h cmd url fs).2 file hash = false) ->
  exists m', for_url file hash urls m = GoesOn m'
             /\ history m' = history m ++ tampered_pass file urls.
Proof.
  revert m. induction urls as [|url urls IH]; intros m Hbad;
    cbn [for_url tampered_pass flat_map].
  - exists m. by rewrite app_nil_r.
  - destruct (for_cmd_all_tampered file hash url (commands file) m) as (m1 & -> & Hh1).
    { intros. apply Hbad; [left | assumption]. }
    edestruct IH as (m' & -> & Hh); [intros; apply Hbad; [by right | assumption]|].
    exists m'. split; [reflexivity|]. rewrite Hh, Hh1. by rewrite <- app_assoc.
Qed.

(** X12. Mirrors that serve other bytes are passed over, for a target name
    that is one plain word and a URL list in plain text: when every
    transfer from the first mirrors succeeds with a file that fails the hash
    check, and the first command on the next mirror succeeds with one that
    passes, [download-or-bust], started without the target file, returns in
    its first pass with status 0 and the check passed; before that it has
    run every command on every such mirror, in order, and removed the file
    after each of these transfers. *)
Theorem tampered_mirrors_skipped (passes : nat) (file hash urls : string) (m : Machine)
    (tampered : list string) (good : string) (others : list string)
    (cmd : string) (after : list string) :
  shell_word file = true ->
  shell_text urls = true ->
  split_commas urls = tampered ++ good :: others ->
  commands file = cmd :: after ->
  files m !! file = None ->
  (forall h fs c url,
      url ∈ tampered -> c ∈ commands file ->
      (transfer h c url fs).1 = true
      /\ validate_hash (transfer h c url fs).2 file hash = false) ->
  (forall h fs,
      (transfer h cmd good fs).1 = true
      /\ validate_hash (transfer h cmd good fs).2 file hash = true) ->
  exists m' : Machine,
    download_or_bust (S passes) file hash urls m = Returned 0 m'
    /\ validate_hash (files m') file hash = true
    /\ history m' = history m ++ tampered_pass file tampered ++ [Transfer cmd good].
Proof.
  intros _ _ Hurls Hcmds Hfile Hbad Hgood.
  destruct (for_url_all_tampered file hash tampered m Hbad) as (m1 & Hpass & Hh1).
  destruct (Hgood (history m1) (files m1)) as [Hok Hvalid].
  eexists. split; [|split].
  - unfold download_or_bust. rewrite Hfile, Hurls. cbn [while_true].
    rewrite for_url_app, Hpass. cbn [for_url]. rewrite Hcmds. cbn [for_cmd].
    rewrite attempt_verified by assumption. reflexivity.
  - exact Hvalid.
  - cbn [history]. rewrite Hh1. by rewrite <- app_assoc.
Qed.

(** *** Passes that fail while the network is down *)

Lemma sleeps_app (h h' : list Event) : sleeps (h ++ h') = sleeps h + sleeps h'.
Proof. unfold sleeps. by rewrite List.filter_app, length_app. Qed.

Lemma for_cmd_outage (j : nat) (file hash url : string) (cmds : list string)
    (m : Machine) :
  sleeps (history m) = j ->
  (forall h fs cmd u, sleeps h = j -> (transfer h cmd u fs).1 = false) ->
  exists m', for_cmd file hash url cmds m = GoesOn m'
             /\ history m' = history m ++ map (fun cmd => Transfer cmd url) cmds
             /\ sleeps (history m') = j.
Proof.
  intros Hj Hdown. revert m Hj.
  induction cmds as [|cmd cmds IH]; intros m Hj; cbn [for_cmd map].
  - exists m. by rewrite app_nil_r.
  - rewrite attempt_failed by (by apply Hdown).
    edestruct IH as (m' & -> & Hh & Hj'); [|exists m'; split; [reflexivity|split]].
    + cbn [history]. rewrite sleeps_app, Hj. cbn. lia.
    + rewrite Hh. cbn [history]. by rewrite <- app_assoc.
    + exact Hj'.
Qed.

Lemma for_url_outage (j : nat) (file hash : string) (urls : list string) (m : Machine) :
  sleeps (history m) = j ->
  (forall h fs cmd u, sleeps h = j -> (transfer h cmd u fs).1 = false) ->
  exists m', for_url file hash urls m = GoesOn m'
             /\ history m' = history m ++ pass file urls
             /\ sleeps (history m') = j.
Proof.
  intros Hj Hdown. revert m Hj.
  induction urls as [|url urls IH]; intros m Hj; cbn [for_url pass flat_map].
  - exists m. by rewrite app_nil_r.
  - destruct (for_cmd_outage j file hash url (commands file) m Hj Hdown)
      as (m1 & -> & Hh1 & Hj1).
    destruct (IH m1 Hj1) as (m' & -> & Hh & Hj').
    exists m'. split; [reflexivity|]. split; [|exact Hj'].
    rewrite Hh, Hh1. by rewrite <- app_assoc.
Qed.

Lemma while_true_outage (k j : nat) (file hash : string) (urls : list string)
    (m : Machine) :
  sleeps (history m) = j ->
  (forall h fs cmd u, j <= sleeps h < j + k -> (transfer h cmd u fs).1 = false) ->
  exists m', while_true k file hash urls m = GoesOn m'
             /\ history m' = history m ++ failed_passes k file urls
             /\ sleeps (history m') = j + k.
Proof.
  revert j m. induction k as [|k IH]; intros j m Hj Hdown;
    cbn [while_true failed_passes].
  - exists m. rewrite app_nil_r. split; [reflexivity|]. split; [reflexivity|lia].
  - destruct (for_url_outage j file hash urls m Hj) as (m1 & -> & Hh1 & Hj1).
    { intros h fs cmd u Hh. apply Hdown. lia. }
    destruct (IH (S j) (sleep 60 m1)) as (m' & -> & Hh & Hj').
    { cbn [sleep history]. rewrite sleeps_app, Hj1. cbn. lia. }
    { intros h fs cmd u Hh. apply Hdown. lia. }
    exists m'. split; [reflexivity|]. split; [|lia].
    rewrite Hh. cbn [sleep history]. rewrite Hh1. by rewrite <- !app_assoc.
Qed.

(** X13. Retry until the network is back, for a target name that is one
    plain word and a URL list in plain text: when no transfer succeeds
    before [k] passes have failed, and from then on the first command on the
    first URL succeeds with a file that passes the check,
    [download-or-bust], started from a fresh history without the target
    file, has not returned after [k] passes, each of which ran every command
    on every URL and ended in the sleep, and returns in pass [k + 1] with
    status 0 and the check passed, by its first transfer. *)
Theorem retry_after_outage (k : nat) (file hash urls : string) (m : Machine)
    (url : string) (others : list string) (cmd : string) (after : list string) :
  shell_word file = true ->
  shell_text urls = true ->
  split_commas urls = url :: others ->
  commands file = cmd :: after ->
  files m !! file = None ->
  sleeps (history m) = 0 ->
  (forall h fs c u, sleeps h < k -> (transfer h c u fs).1 = false) ->
  (forall h fs,
      sleeps h = k ->
      (transfer h cmd url fs).1 = true
      /\ validate_hash (transfer h cmd url fs).2 file hash = true) ->
  (exists m0 : Machine,
      download_or_bust k file hash urls m = GoesOn m0
      /\ history m0 = history m ++ failed_passes k file (url :: others))
  /\ exists m' : Machine,
      download_or_bust (S k) file hash urls m = Returned 0 m'
      /\ validate_hash (files m') file hash = true
      /\ history m' =
         history m ++ failed_passes k file (url :: others) ++ [Transfer cmd url].
Proof.
  intros _ _ Hurls Hcmds Hfile Hfresh Hdown Hup.
  destruct (while_true_outage k 0 file hash (url :: others) m Hfresh)
    as (m0 & Hloop & Hh0 & Hj0).
  { intros h fs c u Hh. apply Hdown. lia. }
  split.
  - exists m0. unfold download_or_bust. rewrite Hfile, Hurls. by split.
  - destruct (Hup (history m0) (files m0) Hj0) as [Hok Hvalid].
    eexists. split; [|split].
    + unfold download_or_bust. rewrite Hfile, Hurls.
      replace (S k) with (k + 1) by lia.
      assert (forall n m1, while_true n file hash (url :: others) m = GoesOn m1 ->
                forall n', while_true (n + n') file hash (url :: others) m
                           = while_true n' file hash (url :: others) m1) as Hsplit.
      { clear. intros n. revert m. induction n as [|n IH]; intros m m1;
          cbn [while_true Nat.add].
        - by intros [= ->].
        - destruct (for_url file hash (url :: others) m) as [? ?|m2]; [discriminate|].
          apply IH. }
      rewrite (Hsplit k m0 Hloop 1). cbn [while_true for_url]. rewrite Hcmds.
      cbn [for_cmd]. rewrite attempt_verified by assumption. reflexivity.
    + exact Hvalid.
    + cbn [history]. rewrite Hh0. by rewrite <- app_assoc.
Qed.

End fetcher_further.

Section fetcher_further_examples.

Import nodeup examples scenarios.

Lemma split_commas_fields_witness :
  Forall field (split_commas (bad +:+ ", " +:+ good)).
Proof. apply split_commas_fields. reflexivity. Defined.

Lemma split_commas_Join_witness :
  split_commas (Join [bad; good] ",") = [bad; good].
Proof.
  apply split_commas_Join; [|reflexivity|reflexivity].
  repeat constructor; discriminate.
Defined.

Lemma download_or_bust_frame_witness :
  files (machine_of (download_or_bust 1 "nodeup" digest (bad +:+ "," +:+ good) corrupted))
    !! "conf/kube_env.yaml"
  = files corrupted !! "conf/kube_env.yaml".
Proof.
  apply download_or_bust_frame; [discriminate|].
  intros h cmd url fs. cbn [transfer node].
  destruct (String.eqb url good); cbn [snd]; [|reflexivity].
  by apply lookup_insert_ne.
Defined.

Lemma download_or_bust_events_witness :
  exists evs : list Event,
    history (machine_of (download_or_bust 1 "nodeup" digest (bad +:+ "," +:+ good) corrupted))
    = history corrupted ++ evs
    /\ Forall (allowed "nodeup" (split_commas (bad +:+ "," +:+ good))) evs.
Proof. apply download_or_bust_events; reflexivity. Defined.

Lemma download_or_bust_again_witness :
  download_or_bust 0 "nodeup" digest good
    (machine_of (download_or_bust 1 "nodeup" digest (bad +:+ "," +:+ good) corrupted))
  = Returned 1
      (machine_of (download_or_bust 1 "nodeup" digest (bad +:+ "," +:+ good) corrupted)).
Proof.
  apply (download_or_bust_again 1 0 0 "nodeup" digest (bad +:+ "," +:+ good) good corrupted);
    [reflexivity | reflexivity | discriminate |]. vm_compute. reflexivity.
Defined.

Lemma tampered_mirrors_skipped_witness :
  exists m' : Machine,
    download_or_bust (H := tampering) 1 "nodeup" digest (bad +:+ "," +:+ good) fresh
    = Returned 0 m'
    /\ validate_hash (H := tampering) (files m') "nodeup" digest = true
    /\ history m' =
       history fresh ++ tampered_pass "nodeup" [bad]
       ++ [Transfer "curl -f --compressed -Lo nodeup --connect-timeout 20 --retry 6 --retry-delay 10" good].
Proof.
  apply (tampered_mirrors_skipped (H := tampering) 0 "nodeup" digest
           (bad +:+ "," +:+ good) fresh [bad] good [] _ (tail (commands "nodeup")));
    [reflexivity | reflexivity | reflexivity | reflexivity | reflexivity | |].
  - intros h fs c url Hurl _. apply list_elem_of_singleton in Hurl as ->.
    split; [reflexivity|]. cbn [transfer tampering].
    change (String.eqb bad good) with false. cbn [snd].
    unfold validate_hash. rewrite lookup_insert_eq. reflexivity.
  - intros h fs. split; [reflexivity|]. cbn [transfer tampering].
    change (String.eqb good good) with true. cbn [snd].
    unfold validate_hash. rewrite lookup_insert_eq. reflexivity.
Defined.

Lemma retry_after_outage_witness :
  exists m' : Machine,
    download_or_bust (H := outage 2) 3 "nodeup" digest (good +:+ "," +:+ bad) fresh
    = Returned 0 m'
    /\ validate_hash (H := outage 2) (files m') "nodeup" digest = true
    /\ history m' =
       history fresh ++ failed_passes 2 "nodeup" [good; bad]
       ++ [Transfer "curl -f --compressed -Lo nodeup --connect-timeout 20 --retry 6 --retry-delay 10" good].
Proof.
  refine (proj2 (retry_after_outage (H := outage 2) 2 "nodeup" digest
                   (good +:+ "," +:+ bad) fresh good [bad] _ (tail (commands "nodeup"))
                   _ _ _ _ _ _ _ _));
    [reflexivity | reflexivity | reflexivity | reflexivity | reflexivity | reflexivity | |].
  - intros h fs c u Hh. cbn [transfer outage].
    apply Nat.ltb_lt in Hh. by rewrite Hh.
  - intros h fs Hh. cbn [transfer outage].
    assert ((sleeps h <? 2)%nat = false) as -> by (apply Nat.ltb_ge; lia).
    split; [reflexivity|]. cbn [transfer node].
    change (String.eqb good good) with true. cbn [snd].
    unfold validate_hash. rewrite lookup_insert_eq. reflexivity.
Defined.

End fetcher_further_examples.

Section resolver_arm64_lookups.

Context `{DockerPackages}.

(** X14. The two lookups for arm64 know the amd64 table: for a version
    without an amd64 hash, neither [findContainerdVersionUrl] nor
    [findContainerdVersionHash] succeeds for arm64, also when the version
    is in the containerd-to-Docker mapping; for a version that parses to
    1.3.4 or above they fail with the unknown-url and the unknown-hash
    error. *)
Theorem arm64_lookups (version : string) :
  index findAllContainerdHashesAmd64 version = "" ->
  is_err (findContainerdVersionUrl ArchitectureArm64 version) = true
  /\ is_err (findContainerdVersionHash ArchitectureArm64 version) = true
  /\ forall sv : semver.Version,
      semver.ParseTolerant version = Some sv ->
      semver.LT sv (semver.MustParse "1.3.4") = false ->
      findContainerdVersionUrl ArchitectureArm64 version
      = Err (ErrUnknownUrl ArchitectureArm64 version)
      /\ findContainerdVersionHash ArchitectureArm64 version
         = Err (ErrUnknownHash ArchitectureArm64 version).
Proof.
  intros Hno.
  assert (forall sv : semver.Version,
             semver.ParseTolerant version = Some sv ->
             semver.LT sv (semver.MustParse "1.3.4") = false ->
             findContainerdVersionUrl ArchitectureArm64 version
             = Err (ErrUnknownUrl ArchitectureArm64 version)
             /\ findContainerdVersionHash ArchitectureArm64 version
                = Err (ErrUnknownHash ArchitectureArm64 version)) as Hsup.
  { intros sv Hparse Hge.
    unfold findContainerdVersionUrl, findContainerdVersionHash,
      versionUrlSwitch, versionHashSwitch.
    rewrite Hparse, Hge, Hno. split; reflexivity. }
  split; [|split; [|exact Hsup]].
  - destruct (semver.ParseTolerant version) as [sv|] eqn:Hparse.
    + destruct (semver.LT sv (semver.MustParse "1.3.4")) eqn:Hlt.
      * unfold findContainerdVersionUrl. by rewrite Hparse, Hlt.
      * by rewrite (proj1 (Hsup sv eq_refl Hlt)).
    + unfold findContainerdVersionUrl. by rewrite Hparse.
  - destruct (semver.ParseTolerant version) as [sv|] eqn:Hparse.
    + destruct (semver.LT sv (semver.MustParse "1.3.4")) eqn:Hlt.
      * unfold findContainerdVersionHash. by rewrite Hparse, Hlt.
      * by rewrite (proj2 (Hsup sv eq_refl Hlt)).
    + unfold findContainerdVersionHash. by rewrite Hparse.
Qed.

End resolver_arm64_lookups.

Section resolver_arm64_lookups_examples.

Import examples.

(** 1.3.7 is mapped to Docker 19.03.13, and still the lookups for arm64
    have nothing for it. *)
Lemma arm64_lookups_witness :
  index findAllContainerdDockerMappings "1.3.7" = "19.03.13"
  /\ findContainerdVersionUrl ArchitectureArm64 "1.3.7"
     = Err (ErrUnknownUrl ArchitectureArm64 "1.3.7")
  /\ findContainerdVersionHash ArchitectureArm64 "1.3.7"
     = Err (ErrUnknownHash ArchitectureArm64 "1.3.7").
Proof.
  split; [reflexivity|].
  apply (proj2 (proj2 (arm64_lookups "1.3.7" eq_refl)) (semver.plain 1 3 7));
    vm_compute; reflexivity.
Defined.

End resolver_arm64_lookups_examples.
